(** * stock-portfolio-daily: the report pipeline of [main.py]

    A shallow embedding of the pure core of [main.py] (paginator,
    aggregator, valuation, formatters, per-ticker batch loop) together with
    the properties its specification states about it.

    Conventions.
    - A Python [float] is a binary64 value: Rocq's primitive [float], with
      IEEE-754 arithmetic and comparisons.  A value that is [None] or a
      float is an [option float].
    - A Python call that may raise returns an [outcome]: [Ok v] or [Raise e].
    - The remote service, the clock and the text-to-number conversion of
      pandas are inputs of the model. *)

From Stdlib Require Import ZArith NArith List String Ascii Bool Lia Floats.
From Stdlib Require Import DecimalString DecimalN.
Import ListNotations.

Set Warnings "-inexact-float".

Local Open Scope string_scope.
Local Open Scope Z_scope.

(* ================================================================== *)
(** ** Python values: exceptions, results, floats                      *)
(* ================================================================== *)

(** An exception, known by the name of its class: the code catches
    every [Exception] and writes only [type(e).__name__]. *)
Inductive exn : Type := Exn (class_name : string).

(** [type(e).__name__] *)
Definition exn_name (e : exn) : string :=
  match e with
  | Exn class_name => class_name
  end.

(** The classes the code and its libraries raise by name. *)
Definition ZeroDivisionError : exn := Exn "ZeroDivisionError".
Definition OverflowError : exn := Exn "OverflowError".
Definition ValueError : exn := Exn "ValueError".
Definition TypeError : exn := Exn "TypeError".
Definition KeyError : exn := Exn "KeyError".
Definition JSONDecodeError : exn := Exn "JSONDecodeError".
Definition HTTPError : exn := Exn "HTTPError".
Definition ConnectionError : exn := Exn "ConnectionError".
Definition ReadTimeout : exn := Exn "ReadTimeout".
Definition ConnectTimeout : exn := Exn "ConnectTimeout".

(** The outcome of a call: a value, or a raised exception. *)
Inductive outcome (A : Type) : Type :=
  | Ok (a : A)
  | Raise (e : exn).
Arguments Ok {A} a.
Arguments Raise {A} e.

Definition bind {A B : Type} (c : outcome A) (k : A -> outcome B) : outcome B :=
  match c with
  | Ok a => k a
  | Raise e => Raise e
  end.

Notation "x <- c ;; k" := (bind c (fun x => k))
  (at level 61, c at next level, right associativity).

(** [try: c  except Exception as e: h e] *)
Definition try_except {A : Type} (c : outcome A) (h : exn -> A) : A :=
  match c with
  | Ok a => a
  | Raise e => h e
  end.

Definition raises {A : Type} (c : outcome A) : bool :=
  match c with
  | Ok _ => false
  | Raise _ => true
  end.

Module PyFloat.

(** [np.isnan(x)] on a float. *)
Definition isnan (x : float) : bool :=
  match Prim2SF x with
  | S754_nan => true
  | _ => false
  end.

Definition isinf (x : float) : bool :=
  match Prim2SF x with
  | S754_infinity _ => true
  | _ => false
  end.

(** [x == 0] for a float [x]: true of both signed zeros, false of NaN. *)
Definition eq_zero (x : float) : bool := PrimFloat.eqb x 0%float.

(** [a / b] on Python floats: a zero divisor raises, everything else is
    the IEEE quotient (infinities and NaN included). *)
Definition truediv (a b : float) : outcome float :=
  if eq_zero b then Raise ZeroDivisionError else Ok (PrimFloat.div a b).

Definition nan : float := PrimFloat.nan.
Definition inf : float := PrimFloat.infinity.

End PyFloat.

(* ================================================================== *)
(** ** Configuration                                                   *)
(* ================================================================== *)

Definition REPORT_FACTOR : float := 0.9%float.
Definition BARGAIN_FACTOR : float := 0.8%float.
Definition LOOKBACK_YEARS : Z := 1.
Definition PAGE_SIZE : nat := 50.
Definition MAX_PAGES : nat := 50.

(* ================================================================== *)
(** ** Valuation: [safe_ratio]                                         *)
(* ================================================================== *)

(** [report_eval in (None, 0)] *)
Definition in_none_zero (report_eval : option float) : bool :=
  match report_eval with
  | None => true
  | Some r => PyFloat.eq_zero r
  end.

(** [isinstance(x, float) and np.isnan(x)] *)
Definition is_float_nan (x : option float) : bool :=
  match x with
  | None => false
  | Some f => PyFloat.isnan f
  end.

Definition is_none {A : Type} (x : option A) : bool :=
  match x with
  | None => true
  | Some _ => false
  end.

(** [safe_ratio(current_price, report_eval)].  After the guard both
    operands are floats, so [float(...)] is the identity on them. *)
Definition safe_ratio (current_price report_eval : option float)
  : outcome (option float) :=
  if is_none current_price || in_none_zero report_eval
     || is_float_nan report_eval
  then Ok None
  else
    match current_price, report_eval with
    | Some c, Some r => q <- PyFloat.truediv c r ;; Ok (Some q)
    | _, _ => Raise TypeError
    end.

(* ================================================================== *)
(** ** Row formatter: highlight classification                         *)
(* ================================================================== *)

Definition STRONG_COLOR : string := "#6E0080".
Definition MEDIUM_COLOR : string := "#00803E".

(** [row_color_by_ratio(r)] *)
Definition row_color_by_ratio (r : option float) : string :=
  match r with
  | None => ""
  | Some x =>
      if negb (PyFloat.isnan x) && PrimFloat.leb x 0.8%float
      then STRONG_COLOR
      else if negb (PyFloat.isnan x)
              && PrimFloat.ltb 0.8%float x && PrimFloat.ltb x 0.9%float
      then MEDIUM_COLOR
      else ""
  end.

(* ================================================================== *)
(** ** Row formatter: numbers as text                                  *)
(* ================================================================== *)

(** The exact value of a finite float is [num / den] with [den > 0]:
    [m * 2^e] for a non-negative exponent, [m / 2^(-e)] otherwise.
    [abs_fraction] gives the fraction of the absolute value. *)
Definition abs_fraction (m : positive) (e : Z) : Z * Z :=
  if 0 <=? e then (Zpos m * 2 ^ e, 1) else (Zpos m, 2 ^ (- e)).

(** Round the non-negative fraction [num / den] to an integer, a tie
    going to the even neighbour. *)
Definition round_half_even (num den : Z) : Z :=
  let q := num / den in
  let r := num mod den in
  if 2 * r <? den then q
  else if den <? 2 * r then q + 1
  else if Z.even q then q else q + 1.

(** [int(round(x))] for a float [x]: the nearest integer, ties to even;
    an infinity raises [OverflowError], not-a-number [ValueError]. *)
Definition py_round (x : float) : outcome Z :=
  match Prim2SF x with
  | S754_zero _ => Ok 0
  | S754_infinity _ => Raise OverflowError
  | S754_nan => Raise ValueError
  | S754_finite s m e =>
      let '(num, den) := abs_fraction m e in
      let n := round_half_even num den in
      Ok (if s then - n else n)
  end.

(** The decimal digits of a natural number, most significant first. *)
Definition decimal (n : Z) : list ascii :=
  list_ascii_of_string (NilZero.string_of_uint (N.to_uint (Z.to_N n))).

Definition comma : ascii := ","%char.
Definition dot : ascii := "."%char.
Definition minus : ascii := "-"%char.

(** Thousands separators, on the digits taken least significant first:
    a comma after every third digit that has a digit after it.  The
    result is again least significant first. *)
Fixpoint group3 (rev_digits : list ascii) : list ascii :=
  match rev_digits with
  | a :: b :: c :: rest =>
      match rest with
      | [] => [a; b; c]
      | _ :: _ => a :: b :: c :: comma :: group3 rest
      end
  | short => short
  end.

(** [f"{n:,}"] for an integer [n]. *)
Definition format_commas (n : Z) : string :=
  let body := rev (group3 (rev (decimal (Z.abs n)))) in
  string_of_list_ascii (if n <? 0 then minus :: body else body).

(** [fmt_int_commas(x)] *)
Definition fmt_int_commas (x : option float) : string :=
  if is_none x || is_float_nan x then ""
  else
    match x with
    | Some f => try_except (n <- py_round f ;; Ok (format_commas n))
                           (fun _ => "")
    | None => ""
    end.

Definition digit_char (d : Z) : ascii := ascii_of_nat (48 + Z.to_nat d).

(** [f"{x:.3f}"] for a float [x]: the value rounded to a whole number of
    thousandths (ties to even, on the exact value), written with the sign
    of [x], the integer part, a point and three digits. *)
Definition format_3f (x : float) : string :=
  match Prim2SF x with
  | S754_nan => "nan"
  | S754_infinity s => if s then "-inf" else "inf"
  | S754_zero s => if s then "-0.000" else "0.000"
  | S754_finite s m e =>
      let '(num, den) := abs_fraction m e in
      let k := round_half_even (1000 * num) den in
      let body :=
        (decimal (k / 1000)
         ++ [dot; digit_char (k mod 1000 / 100);
             digit_char (k mod 100 / 10); digit_char (k mod 10)])%list in
      string_of_list_ascii (if s then minus :: body else body)
  end.

(** [fmt_ratio(x)] *)
Definition fmt_ratio (x : option float) : string :=
  if is_none x || is_float_nan x then ""
  else
    match x with
    | Some f => format_3f f
    | None => ""
    end.

(** The exact value of a float that is zero or finite, as a signed
    fraction [(num, den)] with [den > 0]. *)
Definition exact_value (x : float) : option (Z * Z) :=
  match Prim2SF x with
  | S754_zero _ => Some (0, 1)
  | S754_finite s m e =>
      let '(num, den) := abs_fraction m e in
      Some (if s then - num else num, den)
  | _ => None
  end.

(** The sign bit of a float. *)
Definition signbit (x : float) : bool :=
  match Prim2SF x with
  | S754_zero s | S754_infinity s | S754_finite s _ _ => s
  | S754_nan => false
  end.

(** [n] is an integer nearest to [num / den]: at most one half away. *)
Definition nearest_integer (num den n : Z) : Prop :=
  2 * Z.abs (num - n * den) <= den.

(** A text without its commas. *)
Definition strip_commas (s : string) : list ascii :=
  filter (fun c => negb (Ascii.eqb c comma)) (list_ascii_of_string s).

(** Thousands separators in a text taken least significant character
    first: the commas are exactly the characters at the places 3, 7,
    11, ... *)
Definition separators_every_three (g : list ascii) : Prop :=
  forall i : nat,
    (i < List.length g)%nat ->
    (nth i g comma = comma <-> (i mod 4 = 3)%nat).

(** [n] is the integer nearest to [num / den], the even one of the two
    when [num / den] is half way between two integers. *)
Definition nearest_ties_to_even (num den n : Z) : Prop :=
  nearest_integer num den n
  /\ (2 * Z.abs (num - n * den) = den -> Z.even n = true).

(** The sign in front of a negative number. *)
Definition sign_of (negative : bool) : list ascii :=
  if negative then [minus] else [].

(* ================================================================== *)
(** ** Dates                                                           *)
(* ================================================================== *)

(** A calendar date (a timestamp normalised to midnight). *)
Record date : Type := mkdate { year : Z; month : Z; day : Z }.

Definition date_leb (a b : date) : bool :=
  (year a <? year b)
  || ((year a =? year b)
      && ((month a <? month b)
          || ((month a =? month b) && (day a <=? day b)))).

Definition is_leap (y : Z) : bool :=
  ((y mod 4 =? 0) && negb (y mod 100 =? 0)) || (y mod 400 =? 0).

Definition days_in_month (y m : Z) : Z :=
  if m =? 2 then (if is_leap y then 29 else 28)
  else if (m =? 4) || (m =? 6) || (m =? 9) || (m =? 11) then 30
  else 31.

(** The years a date can have. *)
Definition MINYEAR : Z := 1.
Definition MAXYEAR : Z := 9999.

(** [d - pd.DateOffset(years=n)]: the same month and day [n] years
    earlier, the day clipped to the length of the month (29 February
    becomes 28 February in a common year).  A year outside
    [MINYEAR..MAXYEAR] raises [ValueError]. *)
Definition sub_years (d : date) (n : Z) : outcome date :=
  let y := year d - n in
  if (MINYEAR <=? y) && (y <=? MAXYEAR)
  then Ok (mkdate y (month d) (Z.min (day d) (days_in_month y (month d))))
  else Raise ValueError.

(** [cutoff <= d] on dates, written out. *)
Definition on_or_after (cutoff d : date) : Prop :=
  year cutoff < year d
  \/ (year cutoff = year d
      /\ (month cutoff < month d
          \/ (month cutoff = month d /\ day cutoff <= day d))).

Definition is_digit (c : ascii) : bool :=
  let n := nat_of_ascii c in (48 <=? n)%nat && (n <=? 57)%nat.

Definition digit_val (c : ascii) : Z := Z.of_nat (nat_of_ascii c) - 48.

Definition slash : ascii := "/"%char.
Definition space : ascii := " "%char.

(** The fields of a text between the separators [sep]. *)
Fixpoint split_on (sep : ascii) (s : list ascii) : list (list ascii) :=
  match s with
  | [] => [[]]
  | c :: s' =>
      if Ascii.eqb c sep then [] :: split_on sep s'
      else
        match split_on sep s' with
        | f :: fs => (c :: f) :: fs
        | [] => [[c]]
        end
  end.

(** [%d]: 01..31 on two digits, or 1..9 on one digit, which a blank may
    precede. *)
Definition parse_day (f : list ascii) : option Z :=
  match f with
  | [a] =>
      if is_digit a && (1 <=? digit_val a) then Some (digit_val a) else None
  | [a; b] =>
      if is_digit a && is_digit b then
        let v := 10 * digit_val a + digit_val b in
        if (1 <=? v) && (v <=? 31) then Some v else None
      else if Ascii.eqb a space && is_digit b && (1 <=? digit_val b)
      then Some (digit_val b)
      else None
  | _ => None
  end.

(** [%m]: 01..12 on two digits, or 1..9 on one digit. *)
Definition parse_month (f : list ascii) : option Z :=
  match f with
  | [a] =>
      if is_digit a && (1 <=? digit_val a) then Some (digit_val a) else None
  | [a; b] =>
      if is_digit a && is_digit b then
        let v := 10 * digit_val a + digit_val b in
        if (1 <=? v) && (v <=? 12) then Some v else None
      else None
  | _ => None
  end.

(** [%Y]: exactly four digits. *)
Definition parse_year (f : list ascii) : option Z :=
  match f with
  | [a; b; c; d] =>
      if is_digit a && is_digit b && is_digit c && is_digit d
      then Some (1000 * digit_val a + 100 * digit_val b
                 + 10 * digit_val c + digit_val d)
      else None
  | _ => None
  end.

(** A text read under the format [%d/%m/%Y]: the three fields, and
    nothing else, of a date that exists. *)
Definition parse_dmy (s : string) : option date :=
  match split_on slash (list_ascii_of_string s) with
  | [fd; fm; fy] =>
      match parse_day fd, parse_month fm, parse_year fy with
      | Some d, Some m, Some y =>
          if (1 <=? y) && (d <=? days_in_month y m)
          then Some (mkdate y m d) else None
      | _, _, _ => None
      end
  | _ => None
  end.

(** What the clock of the machine shows when it is read: the date in
    UTC and the date in the local time zone. *)
Record clock : Type := mkclock { utc_today : date; local_today : date }.

(** [pd.Timestamp.today().normalize()]: the current local date. *)
Definition timestamp_today (c : clock) : date := local_today c.

(* ================================================================== *)
(** ** Raw reports                                                     *)
(* ================================================================== *)

(** A JSON scalar as the provider sends it. *)
Inductive jval : Type :=
  | JNull
  | JNum (f : float)
  | JStr (s : string).

(** One analyst report: the three keys the aggregator reads.  A key the
    record does not carry is [None]. *)
Record RawReport : Type := mkreport {
  issueDate : option jval;
  targetPrice : option jval;
  source : option jval
}.

(** A column exists in [pd.DataFrame(raw_rows)] when some record carries
    the key. *)
Definition has_column (key : RawReport -> option jval)
    (raw_rows : list RawReport) : bool :=
  existsb (fun r => negb (is_none (key r))) raw_rows.

(** [pd.to_datetime(cell, format="%d/%m/%Y", errors="coerce")]: the
    texts [today] and [now] are read as the current local time, whatever
    the format; any other text gives a date only when it is in the
    format; everything else is NaT.  A time of day does not change the
    comparison with a cutoff at midnight, so the current time is kept as
    the current date. *)
Definition to_datetime (c : clock) (cell : option jval) : option date :=
  match cell with
  | Some (JStr s) =>
      if String.eqb s "today" || String.eqb s "now"
      then Some (local_today c)
      else parse_dmy s
  | _ => None
  end.

(** A cell that [dropna] keeps. *)
Definition notna (cell : option jval) : option jval :=
  match cell with
  | None => None
  | Some JNull => None
  | Some (JNum f) => if PyFloat.isnan f then None else Some (JNum f)
  | Some (JStr s) => Some (JStr s)
  end.

(** Equality of two cells that are not null. *)
Definition jval_eqb (a b : jval) : bool :=
  match a, b with
  | JStr s, JStr t => String.eqb s t
  | JNum f, JNum g => PrimFloat.eqb f g
  | _, _ => false
  end.

(** [Series.dropna()] *)
Fixpoint dropna (cells : list (option jval)) : list jval :=
  match cells with
  | [] => []
  | c :: rest =>
      match notna c with
      | Some v => v :: dropna rest
      | None => dropna rest
      end
  end.

(** [Series.unique()]: one value of each kind. *)
Fixpoint unique (vals : list jval) : list jval :=
  match vals with
  | [] => []
  | v :: rest =>
      if existsb (jval_eqb v) rest then unique rest else v :: unique rest
  end.

(** No two values of a list are equal. *)
Fixpoint all_distinct (vals : list jval) : Prop :=
  match vals with
  | [] => True
  | v :: rest =>
      (forall u, In u rest -> jval_eqb v u = false) /\ all_distinct rest
  end.

(** A source that counts: not missing, not null, not not-a-number. *)
Definition counted_source (r : RawReport) (v : jval) : Prop :=
  source r = Some v
  /\ v <> JNull
  /\ (forall f, v = JNum f -> PyFloat.isnan f = false).

(** [Series.nunique()]: the number of distinct values. *)
Fixpoint nunique (vals : list jval) : nat :=
  match vals with
  | [] => 0
  | v :: rest =>
      if existsb (jval_eqb v) rest then nunique rest else S (nunique rest)
  end.

(** *** The sum of numpy

    [ndarray.sum()] on doubles adds pairwise: fewer than 8 numbers are
    added from left to right; up to 128 numbers are added in 8
    interleaved partial sums, which are then added in pairs, and the
    numbers left over are added last; a longer array is cut in two
    (the first part a multiple of 8 long) and the sums of the two parts
    are added. *)
Definition minus_zero : float := (- 0)%float.

Definition sum_from (start : float) (a : list float) : float :=
  fold_left PrimFloat.add a start.

(** [r[j] += a[j]] for the 8 partial sums. *)
Fixpoint add_into (r a : list float) : list float :=
  match r, a with
  | x :: r', y :: a' => PrimFloat.add x y :: add_into r' a'
  | _, _ => r
  end.

(** [blocks] times: add the next 8 numbers into the partial sums. *)
Fixpoint add_blocks (blocks : nat) (r a : list float)
  : list float * list float :=
  match blocks with
  | O => (r, a)
  | S k => add_blocks k (add_into r (firstn 8 a)) (skipn 8 a)
  end.

(** [((r0 + r1) + (r2 + r3)) + ((r4 + r5) + (r6 + r7))] *)
Definition add_pairs (r : list float) : float :=
  match r with
  | [r0; r1; r2; r3; r4; r5; r6; r7] =>
      PrimFloat.add
        (PrimFloat.add (PrimFloat.add r0 r1) (PrimFloat.add r2 r3))
        (PrimFloat.add (PrimFloat.add r4 r5) (PrimFloat.add r6 r7))
  | _ => minus_zero
  end.

(** The sum of 8 to 128 numbers. *)
Definition block_sum (a : list float) : float :=
  let '(r, rest) :=
    add_blocks (List.length a / 8 - 1) (firstn 8 a) (skipn 8 a) in
  sum_from (add_pairs r) rest.

(** The pairwise sum; [depth] bounds the number of times the array is
    cut in two, and the length of the array is always enough. *)
Fixpoint pairwise_sum (depth : nat) (a : list float) : float :=
  let n := List.length a in
  if (n <? 8)%nat then sum_from minus_zero a
  else if (n <=? 128)%nat then block_sum a
  else
    match depth with
    | O => block_sum a
    | S d =>
        let n2 := (n / 2 - (n / 2) mod 8)%nat in
        PrimFloat.add (pairwise_sum d (firstn n2 a))
                      (pairwise_sum d (skipn n2 a))
    end.

(** [a.sum()]: the reduction starts from minus zero, which changes no
    sum. *)
Definition numpy_sum (a : list float) : float :=
  PrimFloat.add minus_zero (pairwise_sum (List.length a) a).

(** *** The mean of pandas

    [Series.mean()] on floats: a not-a-number entry counts as 0 in the
    sum and is left out of the count; the mean is the sum divided by the
    count, and not-a-number when nothing is counted. *)
Definition fill_na (vals : list float) : list float :=
  map (fun v => if PyFloat.isnan v then 0%float else v) vals.

Definition skipna (vals : list float) : list float :=
  filter (fun v => negb (PyFloat.isnan v)) vals.

Definition float_of_nat (n : nat) : float :=
  PrimFloat.of_uint63 (Uint63.of_Z (Z.of_nat n)).

Definition mean (vals : list float) : float :=
  match List.length (skipna vals) with
  | O => PyFloat.nan
  | S k =>
      PrimFloat.div (numpy_sum (fill_na vals)) (float_of_nat (S k))
  end.

(** [None if pd.isna(x) else float(x)] *)
Definition none_if_na (x : float) : option float :=
  if PyFloat.isnan x then None else Some x.

(** A page of the report list: the three keys under which the provider
    may put the rows.  [None] is a key that is absent or null. *)
Record page_json : Type := mkpage {
  data : option (list RawReport);
  items : option (list RawReport);
  result : option (list RawReport)
}.

(** [js.get(key) or ...]: an absent, null or empty list is falsy. *)
Definition truthy (v : option (list RawReport)) : bool :=
  match v with
  | Some (_ :: _) => true
  | _ => false
  end.

Definition or_list (v : option (list RawReport)) (other : list RawReport)
  : list RawReport :=
  match v with
  | Some (r :: rs) => r :: rs
  | _ => other
  end.

(** [js.get("data") or js.get("items") or js.get("result") or []] *)
Definition page_rows (js : page_json) : list RawReport :=
  or_list (data js) (or_list (items js) (or_list (result js) [])).

(** What [requests.get] gives: no reply at all (the call raised), or a
    reply with its status code and the outcome of decoding its body. *)
Inductive http_reply (A : Type) : Type :=
  | NoReply (e : exn)
  | Reply (status : Z) (body : outcome A).
Arguments NoReply {A} e.
Arguments Reply {A} status body.

(** [r.raise_for_status()] *)
Definition raise_for_status (status : Z) : outcome unit :=
  if (400 <=? status) && (status <? 600) then Raise HTTPError else Ok tt.

(** The outside of the run: the two endpoints of the provider and the
    clock, read while the reports of a ticker are summarised. *)
Record world : Type := mkworld {
  quote : string -> http_reply float;
  report_list : string -> nat -> nat -> http_reply page_json;
  now : string -> clock
}.

(** [fetch_current_price(ticker)]; the body of the reply is the outcome
    of [float(r.json()["data"]["priceClose"])]. *)
Definition fetch_current_price (w : world) (ticker : string)
  : outcome float :=
  match quote w ticker with
  | NoReply e => Raise e
  | Reply status body => _ <- raise_for_status status ;; body
  end.

(** [fetch_reports_page(ticker, page, size)] *)
Definition fetch_reports_page (w : world) (ticker : string)
    (page size : nat) : outcome page_json :=
  match report_list w ticker page size with
  | NoReply e => Raise e
  | Reply status body => _ <- raise_for_status status ;; body
  end.

(** The loop of [fetch_all_reports]: [todo] pages of the range are left,
    [page] is the next one, [all_rows] the rows gathered so far and
    [log] the pages requested so far.  The pause between two requests
    has no effect on the result and is left out. *)
Fixpoint fetch_loop (w : world) (ticker : string) (size : nat)
    (todo page : nat) (all_rows : list RawReport) (log : list nat)
  : list nat * outcome (list RawReport) :=
  match todo with
  | O => (log, Ok all_rows)
  | S todo' =>
      match fetch_reports_page w ticker page size with
      | Raise e => ((log ++ [page])%list, Raise e)
      | Ok js =>
          let rows := page_rows js in
          match rows with
          | [] => ((log ++ [page])%list, Ok all_rows)
          | _ :: _ =>
              let all_rows := (all_rows ++ rows)%list in
              if (List.length rows <? size)%nat
              then ((log ++ [page])%list, Ok all_rows)
              else fetch_loop w ticker size todo' (S page) all_rows
                              (log ++ [page])%list
          end
      end
  end.

(** [fetch_all_reports(ticker, size, max_pages, page_start)], with the
    pages it requested, in order. *)
Definition fetch_all_reports_log (w : world) (ticker : string)
    (size max_pages page_start : nat)
  : list nat * outcome (list RawReport) :=
  fetch_loop w ticker size max_pages page_start [] [].

Definition fetch_all_reports (w : world) (ticker : string)
    (size max_pages page_start : nat) : outcome (list RawReport) :=
  snd (fetch_all_reports_log w ticker size max_pages page_start).

Definition requested_pages (w : world) (ticker : string)
    (size max_pages page_start : nat) : list nat :=
  fst (fetch_all_reports_log w ticker size max_pages page_start).

(** The rows page [k] of a ticker holds, none when the request fails. *)
Definition rows_of_page (w : world) (ticker : string) (size k : nat)
  : list RawReport :=
  match fetch_reports_page w ticker k size with
  | Ok js => page_rows js
  | Raise _ => []
  end.

(** A full page: the request succeeds and its list is not empty and not
    shorter than [size]. *)
Definition is_full (w : world) (ticker : string) (size k : nat) : bool :=
  match fetch_reports_page w ticker k size with
  | Ok js =>
      match page_rows js with
      | [] => false
      | rows => negb (List.length rows <? size)%nat
      end
  | Raise _ => false
  end.

(* ================================================================== *)
(** ** Report aggregator and the batch loop                            *)
(* ================================================================== *)

(** The stock codes of the run, in order. *)
Definition TICKERS : list string :=
  ["MSN"; "SAB"; "VNM"; "GVR"; "MWG"; "DGW"; "FRT"; "PNJ"; "IMP"; "DHG";
   "MBB"; "VCB"; "BID"; "FOX"; "FPT"; "HPG"; "DGC"; "CTR"; "VCG"; "PC1";
   "GMD"; "POW"; "QTP";
   "VIC"; "VHM"; "DXG"; "DIG"; "KDH"; "KDC"; "KBC"; "DPM"; "PDR"; "STB";
   "SHB"; "SSI"; "HUT"; "VCI"; "VJC"; "GEX"; "EIB"; "PLX"; "VRE"; "VIX";
   "VND"; "MCH"; "VPL"; "TCX"; "NVL"].

(** One row of the output table. *)
Record TickerRow : Type := mkrow {
  Stock_Code : string;
  Current_Price : option float;
  Report_Evaluation : option float;
  Diversity_of_Report_Source : nat;
  Acceptable_Purchase_Price : option float;
  Ratio : option float;
  Reports_1Y : nat;
  Errors : string
}.

Definition set_Current_Price (v : option float) (r : TickerRow) :=
  mkrow (Stock_Code r) v (Report_Evaluation r)
        (Diversity_of_Report_Source r) (Acceptable_Purchase_Price r)
        (Ratio r) (Reports_1Y r) (Errors r).

Definition set_Report_Evaluation (v : option float) (r : TickerRow) :=
  mkrow (Stock_Code r) (Current_Price r) v
        (Diversity_of_Report_Source r) (Acceptable_Purchase_Price r)
        (Ratio r) (Reports_1Y r) (Errors r).

Definition set_Diversity (v : nat) (r : TickerRow) :=
  mkrow (Stock_Code r) (Current_Price r) (Report_Evaluation r)
        v (Acceptable_Purchase_Price r)
        (Ratio r) (Reports_1Y r) (Errors r).

Definition set_Acceptable (v : option float) (r : TickerRow) :=
  mkrow (Stock_Code r) (Current_Price r) (Report_Evaluation r)
        (Diversity_of_Report_Source r) v
        (Ratio r) (Reports_1Y r) (Errors r).

Definition set_Ratio (v : option float) (r : TickerRow) :=
  mkrow (Stock_Code r) (Current_Price r) (Report_Evaluation r)
        (Diversity_of_Report_Source r) (Acceptable_Purchase_Price r)
        v (Reports_1Y r) (Errors r).

Definition set_Reports_1Y (v : nat) (r : TickerRow) :=
  mkrow (Stock_Code r) (Current_Price r) (Report_Evaluation r)
        (Diversity_of_Report_Source r) (Acceptable_Purchase_Price r)
        (Ratio r) v (Errors r).

(** [row["Errors"] += tag] *)
Definition add_error (tag : string) (r : TickerRow) :=
  mkrow (Stock_Code r) (Current_Price r) (Report_Evaluation r)
        (Diversity_of_Report_Source r) (Acceptable_Purchase_Price r)
        (Ratio r) (Reports_1Y r) (Errors r ++ tag)%string.

Definition price_err (e : exn) : string :=
  ("price_err:" ++ exn_name e ++ "; ")%string.
Definition report_err (e : exn) : string :=
  ("report_err:" ++ exn_name e ++ "; ")%string.
Definition no_reports_tag : string := "no_1y_reports_or_no_targetPrice; ".

(** The row a ticker starts with. *)
Definition empty_row (ticker : string) : TickerRow :=
  mkrow ticker None None 0 None None 0 "".

(** The three components of the statistics of a ticker. *)
Definition averageTarget (s : option float * nat * nat) : option float :=
  fst (fst s).
Definition sourceDiversity (s : option float * nat * nat) : nat :=
  snd (fst s).
Definition reportCount (s : option float * nat * nat) : nat := snd s.

(** A record with another target price. *)
Definition with_target (t : option jval) (r : RawReport) : RawReport :=
  mkreport (issueDate r) t (source r).

Section Pipeline.

(** The number pandas reads in a text ([pd.to_numeric] on a string):
    not-a-number when the text is not a number. *)
Variable numeric_of_text : string -> float.

(** [pd.to_numeric(cell, errors="coerce")]; a missing column gives
    not-a-number in every row, like a missing or null cell. *)
Definition to_numeric (cell : option jval) : float :=
  match cell with
  | Some (JNum f) => f
  | Some (JStr s) => numeric_of_text s
  | _ => PyFloat.nan
  end.

(** [today - pd.DateOffset(years=lookback_years)] *)
Definition cutoff_date (c : clock) (lookback_years : Z) : outcome date :=
  sub_years (timestamp_today c) lookback_years.

(** [issueDate_dt.notna() & (issueDate_dt >= cutoff)] for one record. *)
Definition in_window (c : clock) (cutoff : date) (r : RawReport) : bool :=
  match to_datetime c (issueDate r) with
  | Some d => date_leb cutoff d
  | None => false
  end.

(** The frame [df_1y] for a cutoff. *)
Definition window_1y (c : clock) (cutoff : date)
    (raw_rows : list RawReport) : list RawReport :=
  filter (in_window c cutoff) raw_rows.

(** [build_one_year_report_stats(raw_rows, lookback_years)], the clock
    being read once: (average target, diversity, number of reports).
    The two early returns come before the cutoff is computed. *)
Definition build_one_year_report_stats (c : clock)
    (raw_rows : list RawReport) (lookback_years : Z)
  : outcome (option float * nat * nat) :=
  match raw_rows with
  | [] => Ok (None, 0%nat, 0%nat)
  | _ :: _ =>
      if negb (has_column issueDate raw_rows) then Ok (None, 0%nat, 0%nat)
      else
        cutoff <- cutoff_date c lookback_years ;;
        let df_1y := window_1y c cutoff raw_rows in
        match df_1y with
        | [] => Ok (None, 0%nat, 0%nat)
        | _ :: _ =>
            let avg_target :=
              mean (map (fun r => to_numeric (targetPrice r)) df_1y) in
            let diversity :=
              if has_column source raw_rows
              then nunique (dropna (map source df_1y))
              else 0%nat in
            let n_reports := List.length df_1y in
            Ok (none_if_na avg_target, diversity, n_reports)
        end
  end.

(** The statistics of the window for a cutoff, in one expression. *)
Definition window_stats (c : clock) (cutoff : date)
    (raw_rows : list RawReport) : option float * nat * nat :=
  match window_1y c cutoff raw_rows with
  | [] => (None, 0%nat, 0%nat)
  | df =>
      (none_if_na (mean (map (fun r => to_numeric (targetPrice r)) df)),
       nunique (dropna (map source df)),
       List.length df)
  end.

(** The [try] block on the reports of a ticker: the row as far as it
    was filled, and whether the block raised. *)
Definition reports_block (w : world) (ticker : string) (row : TickerRow)
  : TickerRow * outcome unit :=
  match fetch_all_reports w ticker PAGE_SIZE MAX_PAGES 0 with
  | Raise e => (row, Raise e)
  | Ok raw_reports =>
      match build_one_year_report_stats (now w ticker) raw_reports
                                        LOOKBACK_YEARS with
      | Raise e => (row, Raise e)
      | Ok (avg_target_1y, diversity, n_reports_1y) =>
          let row := set_Diversity diversity row in
          let row := set_Reports_1Y n_reports_1y row in
          match avg_target_1y with
          | Some avg =>
              let report_eval := PrimFloat.mul avg REPORT_FACTOR in
              let acceptable := PrimFloat.mul report_eval BARGAIN_FACTOR in
              let row := set_Report_Evaluation (Some report_eval) row in
              let row := set_Acceptable (Some acceptable) row in
              match safe_ratio (Current_Price row) (Some report_eval) with
              | Ok r => (set_Ratio r row, Ok tt)
              | Raise e => (row, Raise e)
              end
          | None => (add_error no_reports_tag row, Ok tt)
          end
      end
  end.

(** The body of the loop of [main] for one ticker. *)
Definition process_ticker (w : world) (ticker : string) : TickerRow :=
  let row := empty_row ticker in
  let row :=
    match fetch_current_price w ticker with
    | Ok p => set_Current_Price (Some p) row
    | Raise e => add_error (price_err e) row
    end in
  let '(row, res) := reports_block w ticker row in
  match res with
  | Ok _ => row
  | Raise e => add_error (report_err e) row
  end.

(** The loop of [main]: [rows_out] after the tickers were processed. *)
Definition main_loop (w : world) (tickers : list string)
  : list TickerRow :=
  fold_left (fun rows_out ticker =>
               (rows_out ++ [process_ticker w ticker])%list)
            tickers [].

Definition main_rows (w : world) : list TickerRow := main_loop w TICKERS.

End Pipeline.

(* ================================================================== *)
(** ** The display table of [main]                                     *)
(* ================================================================== *)

(** [pd.to_numeric(column, errors="coerce")] on a column of floats and
    [None]: a missing value becomes not-a-number. *)
Definition coerce_cell (v : option float) : float :=
  match v with
  | Some f => f
  | None => PyFloat.nan
  end.

(** The text of a price-like column: [column.apply(fmt_int_commas)] after
    the coercion. *)
Definition display_price (v : option float) : string :=
  fmt_int_commas (Some (coerce_cell v)).

(** The text of the ratio column. *)
Definition display_ratio (v : option float) : string :=
  fmt_ratio (Some (coerce_cell v)).

(** The background flag of a row: empty when [pd.isna(r)], the colour of
    [float(r)] otherwise. *)
Definition row_bg (ratio : option float) : string :=
  let r := coerce_cell ratio in
  if PyFloat.isnan r then "" else row_color_by_ratio (Some r).

(** One row of [df_display]. *)
Record DisplayRow : Type := mkdisplay {
  d_Stock_Code : string;
  d_Current_Price : string;
  d_Report_Evaluation : string;
  d_Diversity : nat;
  d_Acceptable_Purchase_Price : string;
  d_Ratio : string;
  d_Reports_1Y : nat;
  d_Errors : string;
  d_bg : string
}.

Definition display_row (r : TickerRow) : DisplayRow :=
  mkdisplay (Stock_Code r)
            (display_price (Current_Price r))
            (display_price (Report_Evaluation r))
            (Diversity_of_Report_Source r)
            (display_price (Acceptable_Purchase_Price r))
            (display_ratio (Ratio r))
            (Reports_1Y r)
            (Errors r)
            (row_bg (Ratio r)).

(** [df_display] for the rows of the run. *)
Definition display_table (rows_out : list TickerRow) : list DisplayRow :=
  map display_row rows_out.

(** Reading a text of digits, and a text of digits with a sign, back as
    an integer. *)
Definition read_digits (s : list ascii) : option Z :=
  option_map (fun d => Z.of_N (N.of_uint d))
             (NilZero.uint_of_string (string_of_list_ascii s)).

Definition read_int (s : list ascii) : option Z :=
  match s with
  | c :: t =>
      if Ascii.eqb c minus then option_map Z.opp (read_digits t)
      else read_digits s
  | [] => None
  end.

(* ================================================================== *)
(** ** Sample data                                                     *)
(* ================================================================== *)

Definition report_A : RawReport :=
  mkreport (Some (JStr "01/01/2024")) (Some (JNum 100%float))
           (Some (JStr "A")).
Definition report_B : RawReport :=
  mkreport (Some (JStr "01/01/2024")) (Some (JNum 120%float))
           (Some (JStr "B")).
Definition report_old : RawReport :=
  mkreport (Some (JStr "01/01/2020")) (Some (JNum 999%float))
           (Some (JStr "C")).
Definition report_no_target : RawReport :=
  mkreport (Some (JStr "02/01/2024")) (Some (JStr "n/a")) (Some (JStr "A")).
Definition report_bad_date : RawReport :=
  mkreport (Some (JStr "2024-01-01")) (Some (JNum 100%float))
           (Some (JStr "A")).

Definition june_1_2024 : clock :=
  mkclock (mkdate 2024 6 1) (mkdate 2024 6 1).

(** A text-to-number conversion that reads no text as a number. *)
Definition no_text_number (s : string) : float := PyFloat.nan.

(** A provider whose report list has one full page of one row and then
    answers with status 500; the quote is 90. *)
Definition world_500 : world :=
  mkworld
    (fun _ => Reply 200 (Ok 90%float))
    (fun _ page _ =>
       match page with
       | O => Reply 200 (Ok (mkpage (Some [report_A]) None None))
       | _ => Reply 500 (Ok (mkpage None None None))
       end)
    (fun _ => june_1_2024).

(** A provider whose every page holds one row. *)
Definition world_full : world :=
  mkworld
    (fun _ => Reply 200 (Ok 90%float))
    (fun _ _ _ => Reply 200 (Ok (mkpage None None (Some [report_A]))))
    (fun _ => june_1_2024).

(** A provider with the three sample reports on one short page, whose
    quote endpoint does not answer. *)
Definition world_no_quote : world :=
  mkworld
    (fun _ => NoReply ReadTimeout)
    (fun _ page _ =>
       Reply 200 (Ok (mkpage None
                             (Some [report_A; report_B; report_old]) None)))
    (fun _ => june_1_2024).

(** A report in the window that names no source and no price. *)
Definition report_bare : RawReport :=
  mkreport (Some (JStr "01/01/2024")) None None.

(** Ten reports with a target price of 0.1. *)
Definition ten_reports : list RawReport :=
  repeat (mkreport (Some (JStr "01/01/2024")) (Some (JNum 0.1%float))
                   (Some (JStr "A"))) 10.

(** A text of the form DD/MM/YYYY, from its eight digits. *)
Definition dmy_text (d1 d2 m1 m2 y1 y2 y3 y4 : ascii) : string :=
  string_of_list_ascii [d1; d2; slash; m1; m2; slash; y1; y2; y3; y4].

(** The machine is seven hours ahead of UTC and it is 20:00 UTC on
    1 June 2024: the local date is already 2 June. *)
Definition evening_utc_plus_7 : clock :=
  mkclock (mkdate 2024 6 1) (mkdate 2024 6 2).

Definition report_june_1_2023 : RawReport :=
  mkreport (Some (JStr "01/06/2023")) (Some (JNum 100%float))
           (Some (JStr "A")).

Definition report_zero_target : RawReport :=
  mkreport (Some (JStr "01/03/2024")) (Some (JNum 0%float))
           (Some (JStr "A")).

(** A provider whose only report has a target price of zero. *)
Definition world_zero_target : world :=
  mkworld
    (fun _ => Reply 200 (Ok 90%float))
    (fun _ _ _ => Reply 200 (Ok (mkpage (Some [report_zero_target])
                                        None None)))
    (fun _ => june_1_2024).

(** A provider that answers every report request with status 302 and a
    body that decodes. *)
Definition world_redirect : world :=
  mkworld
    (fun _ => Reply 302 (Ok 90%float))
    (fun _ _ _ => Reply 302 (Ok (mkpage (Some [report_A]) None None)))
    (fun _ => june_1_2024).

(** A provider with a quote of 70 and the three sample reports. *)
Definition world_bargain : world :=
  mkworld
    (fun _ => Reply 200 (Ok 70%float))
    (fun _ _ _ =>
       Reply 200 (Ok (mkpage (Some [report_A; report_B; report_old])
                             None None)))
    (fun _ => june_1_2024).

(* ================================================================== *)
(** * Properties                                                       *)
(* ================================================================== *)

(** ** Floats *)

Lemma SFcompare_le_not_gt :
  forall a b, SFleb a b = true -> SFltb b a = false.
Proof.
  intros a b. unfold SFleb, SFltb.
  destruct a as [sa|sa| |sa ma ea], b as [sb|sb| |sb mb eb]; simpl;
    try (destruct sa); try (destruct sb); simpl; try congruence.
  - change (Pos.compare_cont Eq mb ma) with (Pos.compare mb ma).
    change (Pos.compare_cont Eq ma mb) with (Pos.compare ma mb).
    rewrite (Z.compare_antisym eb ea), (Pos.compare_antisym mb ma).
    destruct (eb ?= ea); simpl; try congruence.
    destruct (mb ?= ma)%positive; simpl; congruence.
  - change (Pos.compare_cont Eq mb ma) with (Pos.compare mb ma).
    change (Pos.compare_cont Eq ma mb) with (Pos.compare ma mb).
    rewrite (Z.compare_antisym eb ea), (Pos.compare_antisym mb ma).
    destruct (eb ?= ea); simpl; try congruence.
    destruct (mb ?= ma)%positive; simpl; congruence.
Qed.

(** IEEE order: [x <= y] excludes [y < x]. *)
Lemma leb_not_ltb :
  forall x y : float, PrimFloat.leb x y = true -> PrimFloat.ltb y x = false.
Proof.
  intros x y H. rewrite leb_spec in H. rewrite ltb_spec.
  now apply SFcompare_le_not_gt.
Qed.

Lemma Prim2SF_08 :
  Prim2SF 0.8%float = S754_finite false 7205759403792794 (-53).
Proof. vm_compute. reflexivity. Qed.

Lemma Prim2SF_09 :
  Prim2SF 0.9%float = S754_finite false 8106479329266893 (-53).
Proof. vm_compute. reflexivity. Qed.

(** Facts on [positive] numbers, moved to [Z] for [lia]. *)
Ltac pos_to_Z :=
  repeat match goal with
         | H : (_ < _)%positive |- _ => apply Pos2Z.pos_lt_pos in H
         | H : @eq positive _ _ |- _ => apply (f_equal Z.pos) in H
         end.

(** Nothing at or above 0.9 is at or below 0.8. *)
Lemma above_09_not_below_08 :
  forall x : float,
    PrimFloat.leb 0.9%float x = true -> PrimFloat.leb x 0.8%float = false.
Proof.
  intros x. rewrite !leb_spec, Prim2SF_08, Prim2SF_09.
  destruct (Prim2SF x) as [s|s| |s m e]; unfold SFleb, SFcompare;
    try destruct s; try (intros; discriminate); try (intros; reflexivity).
  destruct (Z.compare_spec (-53) e) as [H1|H1|H1];
    destruct (Z.compare_spec e (-53)) as [H2|H2|H2];
    try (intros; discriminate); try (intros; reflexivity);
    try (exfalso; lia).
  match goal with
  | |- context [PosDef.Pos.compare_cont Eq ?a m] =>
      generalize (Pos.compare_spec a m)
  end.
  match goal with
  | |- context [PosDef.Pos.compare_cont Eq m ?b] =>
      generalize (Pos.compare_spec m b)
  end.
  unfold Pos.compare, PosDef.Pos.compare.
  intros [H3|H3|H3] [H4|H4|H4];
    try (intros; discriminate); try (intros; reflexivity).
  all: exfalso; subst; pos_to_Z; lia.
Qed.

(** ** Valuation calculator *)

(** The value of [safe_ratio], case by case. *)
Lemma safe_ratio_value :
  forall current_price report_eval : option float,
    safe_ratio current_price report_eval
    = Ok match current_price, report_eval with
         | Some c, Some r =>
             if PyFloat.eq_zero r || PyFloat.isnan r then None
             else Some (PrimFloat.div c r)
         | _, _ => None
         end.
Proof.
  intros [c|] [r|]; unfold safe_ratio; simpl; try reflexivity.
  unfold PyFloat.truediv.
  destruct (PyFloat.eq_zero r); simpl; [reflexivity|].
  destruct (PyFloat.isnan r); reflexivity.
Qed.

(** C1 (amended): on operands that are null or floats [safe_ratio] never
    raises.  It returns null exactly when the current price is null or
    the report evaluation is null, zero or not-a-number, and the IEEE
    quotient current price / report evaluation in every other case; a
    not-a-number current price is not intercepted. *)
Theorem safe_ratio_total :
  forall current_price report_eval : option float,
    safe_ratio current_price report_eval
    = Ok match current_price, report_eval with
         | Some c, Some r =>
             if PyFloat.eq_zero r || PyFloat.isnan r then None
             else Some (PrimFloat.div c r)
         | _, _ => None
         end
    /\ (safe_ratio current_price report_eval = Ok None
        <-> current_price = None
            \/ report_eval = None
            \/ exists r, report_eval = Some r
                         /\ (PyFloat.eq_zero r = true
                             \/ PyFloat.isnan r = true)).
Proof.
  intros cp re. split; [apply safe_ratio_value|].
  rewrite safe_ratio_value.
  destruct cp as [c|], re as [r|]; split; intros H;
    try reflexivity; try (now left); try (now right; left).
  - right. right. exists r. split; [reflexivity|].
    apply orb_true_iff.
    destruct (PyFloat.eq_zero r || PyFloat.isnan r);
      [reflexivity|discriminate].
  - destruct H as [H|[H|(r' & Hr & H)]]; try discriminate.
    injection Hr as <-. apply orb_true_iff in H. now rewrite H.
Qed.

(** C1 as stated fails: the current price not-a-number and the report
    evaluation 110, the result is not null but a not-a-number float. *)
Lemma safe_ratio_nan_price :
  PyFloat.isnan PyFloat.nan = true
  /\ safe_ratio (Some PyFloat.nan) (Some 110%float) <> Ok None
  /\ (exists q, safe_ratio (Some PyFloat.nan) (Some 110%float) = Ok (Some q)
                /\ PyFloat.isnan q = true).
Proof.
  split; [reflexivity|]. split.
  - vm_compute. discriminate.
  - eexists. split; vm_compute; reflexivity.
Qed.

Example ratio_90_110 :
  safe_ratio (Some 90%float) (Some 110%float) = Ok (Some (90 / 110)%float).
Proof. reflexivity. Qed.

Example ratio_zero_eval :
  safe_ratio (Some 90%float) (Some (-0)%float) = Ok None.
Proof. reflexivity. Qed.

(** ** Highlight classification *)

Lemma colors_distinct :
  STRONG_COLOR <> MEDIUM_COLOR /\ STRONG_COLOR <> "" /\ MEDIUM_COLOR <> "".
Proof. repeat split; discriminate. Qed.

(** C2: a null or not-a-number ratio gets no highlight; any other ratio
    [x] gets the strong colour exactly when [x <= 0.8], the medium colour
    exactly when [0.8 < x < 0.9], and no highlight exactly when neither
    holds, in particular when [0.9 <= x].  The two colours are distinct,
    so no ratio is in both tiers. *)
Theorem row_color_by_ratio_tiers :
  forall r : option float,
    (STRONG_COLOR <> MEDIUM_COLOR /\ STRONG_COLOR <> "" /\ MEDIUM_COLOR <> "")
    /\ match r with
       | None => row_color_by_ratio r = ""
       | Some x =>
           if PyFloat.isnan x then row_color_by_ratio r = ""
           else
             (row_color_by_ratio r = STRONG_COLOR
              <-> PrimFloat.leb x 0.8%float = true)
             /\ (row_color_by_ratio r = MEDIUM_COLOR
                 <-> PrimFloat.ltb 0.8%float x = true
                     /\ PrimFloat.ltb x 0.9%float = true)
             /\ (row_color_by_ratio r = ""
                 <-> PrimFloat.leb x 0.8%float = false
                     /\ (PrimFloat.ltb 0.8%float x = false
                         \/ PrimFloat.ltb x 0.9%float = false))
             /\ (PrimFloat.leb 0.9%float x = true
                 -> row_color_by_ratio r = "")
       end.
Proof.
  intros r. split; [exact colors_distinct|].
  destruct r as [x|]; [|reflexivity].
  unfold row_color_by_ratio.
  destruct (PyFloat.isnan x) eqn:Hnan; simpl; [reflexivity|].
  pose proof (leb_not_ltb x 0.8%float) as Hex.
  pose proof (leb_not_ltb 0.9%float x) as Hex9.
  pose proof (above_09_not_below_08 x) as H98.
  unfold STRONG_COLOR, MEDIUM_COLOR.
  destruct (PrimFloat.leb x 0.8%float) eqn:Hle;
    [rewrite (Hex eq_refl)|];
    destruct (PrimFloat.ltb 0.8%float x) eqn:Hlt;
    destruct (PrimFloat.ltb x 0.9%float) eqn:Hlt9; simpl;
    repeat split; intros;
    repeat match goal with
           | H : _ /\ _ |- _ => destruct H
           | H : _ \/ _ |- _ => destruct H
           end;
    try discriminate; try reflexivity;
    try (left; reflexivity); try (right; reflexivity);
    try (specialize (H98 ltac:(assumption)); discriminate);
    try (specialize (Hex9 ltac:(assumption)); discriminate).
Qed.

Example color_90_110 :
  row_color_by_ratio (Some (90 / 110)%float) = MEDIUM_COLOR.
Proof. reflexivity. Qed.

Example color_80_110 :
  row_color_by_ratio (Some (80 / 110)%float) = STRONG_COLOR.
Proof. reflexivity. Qed.

Example color_exactly_08 :
  row_color_by_ratio (Some (80 / 100)%float) = STRONG_COLOR.
Proof. reflexivity. Qed.

Example color_exactly_09 :
  row_color_by_ratio (Some (90 / 100)%float) = "".
Proof. reflexivity. Qed.

(** ** Report paginator *)

Section Paginator.

Variable w : world.
Variable ticker : string.
Variable size : nat.

Lemma is_full_raise :
  forall k e,
    fetch_reports_page w ticker k size = Raise e ->
    is_full w ticker size k = false.
Proof. intros k e H. unfold is_full. now rewrite H. Qed.

(** The loop, from any state: it requests [n] consecutive pages, all
    but the last of them full, stops short of the range only after a page
    that is not full, returns the rows in order when no request failed,
    and raises when one did. *)
Lemma fetch_loop_spec :
  forall todo page all_rows log,
  exists n,
    (n <= todo)%nat
    /\ fst (fetch_loop w ticker size todo page all_rows log)
       = (log ++ seq page n)%list
    /\ (forall k, (S k < n)%nat -> is_full w ticker size (page + k) = true)
    /\ ((n < todo)%nat ->
        (0 < n)%nat /\ is_full w ticker size (page + n - 1) = false)
    /\ ((forall k, (k < n)%nat ->
           raises (fetch_reports_page w ticker (page + k) size) = false) ->
        snd (fetch_loop w ticker size todo page all_rows log)
        = Ok (all_rows
              ++ List.concat (map (rows_of_page w ticker size) (seq page n)))%list)
    /\ (forall k e, (k < n)%nat ->
          fetch_reports_page w ticker (page + k) size = Raise e ->
          snd (fetch_loop w ticker size todo page all_rows log) = Raise e).
Proof.
  induction todo as [|todo IH]; intros page all_rows log.
  - exists 0%nat. simpl. rewrite !app_nil_r.
    repeat split; intros; try lia; try reflexivity.
  - simpl.
    destruct (fetch_reports_page w ticker page size) as [js|e] eqn:Hpage.
    + destruct (page_rows js) as [|r rows] eqn:Hrows.
      * assert (Hfull : is_full w ticker size page = false)
          by (unfold is_full; now rewrite Hpage, Hrows).
        assert (Hrp : rows_of_page w ticker size page = [])
          by (unfold rows_of_page; now rewrite Hpage).
        exists 1%nat. simpl.
        split; [lia|]. split; [reflexivity|].
        split; [intros k Hk; lia|].
        split; [intros _; split; [lia|];
                replace (page + 1 - 1)%nat with page by lia; exact Hfull|].
        split; [intros _; now rewrite Hrp, !app_nil_r|].
        intros k e Hk He. replace (page + k)%nat with page in He by lia.
        congruence.
      * assert (Hrp : rows_of_page w ticker size page = r :: rows)
          by (unfold rows_of_page; now rewrite Hpage, Hrows).
        destruct (List.length (r :: rows) <? size)%nat eqn:Hshort.
        -- assert (Hfull : is_full w ticker size page = false)
             by (unfold is_full; rewrite Hpage, Hrows, Hshort; reflexivity).
           exists 1%nat. simpl.
           split; [lia|]. split; [reflexivity|].
           split; [intros k Hk; lia|].
           split; [intros _; split; [lia|];
                   replace (page + 1 - 1)%nat with page by lia; exact Hfull|].
           split; [intros _; now rewrite Hrp, !app_nil_r|].
           intros k e Hk He. replace (page + k)%nat with page in He by lia.
           congruence.
        -- assert (Hfull : is_full w ticker size page = true)
             by (unfold is_full; rewrite Hpage, Hrows, Hshort; reflexivity).
           destruct (IH (S page) (all_rows ++ r :: rows)%list
                        (log ++ [page])%list)
             as (n & Hn & Hlog & Hfulls & Hstop & Hok & Herr).
           exists (S n).
           split; [lia|].
           split; [rewrite Hlog, <- app_assoc; reflexivity|].
           split.
           { intros k Hk. destruct k as [|k].
             - now rewrite Nat.add_0_r.
             - replace (page + S k)%nat with (S page + k)%nat by lia.
               apply Hfulls. lia. }
           split.
           { intros Hlt. split; [lia|].
             replace (page + S n - 1)%nat with (S page + n - 1)%nat by lia.
             apply Hstop. lia. }
           split.
           { intros Hall. rewrite Hok.
             - simpl. rewrite Hrp, <- app_assoc. reflexivity.
             - intros k Hk.
               replace (S page + k)%nat with (page + S k)%nat by lia.
               apply Hall. lia. }
           intros k e Hk He. destruct k as [|k].
           { rewrite Nat.add_0_r in He. congruence. }
           apply (Herr k e); [lia|].
           now replace (S page + k)%nat with (page + S k)%nat by lia.
    + exists 1%nat. simpl.
      split; [lia|]. split; [reflexivity|].
      split; [intros k Hk; lia|].
      split; [intros _; split; [lia|];
              replace (page + 1 - 1)%nat with page by lia;
              now apply (is_full_raise page e)|].
      split.
      { intros Hall. specialize (Hall 0%nat ltac:(lia)).
        rewrite Nat.add_0_r, Hpage in Hall. discriminate. }
      intros k e' Hk He. replace (page + k)%nat with page in He by lia.
      congruence.
Qed.

End Paginator.

Lemma is_full_false_iff :
  forall (w : world) (ticker : string) (size k : nat),
    is_full w ticker size k = false
    <-> (exists e, fetch_reports_page w ticker k size = Raise e)
        \/ (raises (fetch_reports_page w ticker k size) = false
            /\ (rows_of_page w ticker size k = []
                \/ (List.length (rows_of_page w ticker size k) < size)%nat)).
Proof.
  intros w ticker size k. unfold is_full, rows_of_page.
  destruct (fetch_reports_page w ticker k size) as [js|e]; simpl.
  - destruct (page_rows js) as [|r rows] eqn:Hrows.
    + split; [intros _; right; split; [reflexivity|now left]|reflexivity].
    + rewrite negb_false_iff, Nat.ltb_lt. split.
      * intros H. right. split; [reflexivity|now right].
      * intros [[e He]|[_ [H|H]]]; [discriminate|discriminate|exact H].
  - split; [intros _; left; now exists e|reflexivity].
Qed.

Lemma page_rows_first_non_empty :
  forall js : page_json,
    (truthy (data js) = true -> Some (page_rows js) = data js)
    /\ (truthy (data js) = false -> truthy (items js) = true ->
        Some (page_rows js) = items js)
    /\ (truthy (data js) = false -> truthy (items js) = false ->
        truthy (result js) = true -> Some (page_rows js) = result js)
    /\ (truthy (data js) = false -> truthy (items js) = false ->
        truthy (result js) = false -> page_rows js = []).
Proof.
  intros [d i r]. unfold page_rows. simpl.
  destruct d as [[|? ?]|], i as [[|? ?]|], r as [[|? ?]|]; simpl;
    repeat split; intros; try discriminate; reflexivity.
Qed.

(** C5: starting at page 0 the paginator requests the pages 0, 1, ...,
    n-1 and no more than [max_pages] of them; the rows of a page are the
    first non-empty list among the keys data, items and result (no row
    when none is); every request but the last returned a full page, and
    the loop stops before [max_pages] requests only after a page that is
    not full (empty, shorter than [size], or a failed request); when no
    request fails the result is the rows of the requested pages, in
    request order. *)
Theorem fetch_all_reports_pagination :
  forall (w : world) (ticker : string) (size max_pages : nat),
    let log := requested_pages w ticker size max_pages 0 in
    let n := List.length log in
    log = seq 0 n
    /\ (n <= max_pages)%nat
    /\ (forall k, (S k < n)%nat -> is_full w ticker size k = true)
    /\ ((n < max_pages)%nat ->
        (0 < n)%nat /\ is_full w ticker size (n - 1) = false)
    /\ ((forall k, (k < n)%nat ->
           raises (fetch_reports_page w ticker k size) = false) ->
        fetch_all_reports w ticker size max_pages 0
        = Ok (List.concat (map (rows_of_page w ticker size) log)))
    /\ (forall k,
          is_full w ticker size k = false
          <-> (exists e, fetch_reports_page w ticker k size = Raise e)
              \/ (raises (fetch_reports_page w ticker k size) = false
                  /\ (rows_of_page w ticker size k = []
                      \/ (List.length (rows_of_page w ticker size k)
                          < size)%nat)))
    /\ (forall js : page_json,
          (truthy (data js) = true -> Some (page_rows js) = data js)
          /\ (truthy (data js) = false -> truthy (items js) = true ->
              Some (page_rows js) = items js)
          /\ (truthy (data js) = false -> truthy (items js) = false ->
              truthy (result js) = true -> Some (page_rows js) = result js)
          /\ (truthy (data js) = false -> truthy (items js) = false ->
              truthy (result js) = false -> page_rows js = [])).
Proof.
  intros w ticker size max_pages log n.
  destruct (fetch_loop_spec w ticker size max_pages 0 [] [])
    as (m & Hm & Hlog & Hfulls & Hstop & Hok & _).
  simpl in *.
  assert (Hl : log = seq 0 m) by exact Hlog.
  assert (Hn : n = m) by (unfold n; rewrite Hl; apply length_seq).
  rewrite Hn.
  split; [exact Hl|]. split; [exact Hm|].
  split; [exact Hfulls|].
  split; [exact Hstop|].
  split; [intros Hall; rewrite Hl; apply Hok; exact Hall|].
  split; [intros k; apply is_full_false_iff|].
  exact page_rows_first_non_empty.
Qed.

Lemma raise_for_status_error :
  forall status : Z,
    400 <= status < 600 -> raise_for_status status = Raise HTTPError.
Proof.
  intros status H. unfold raise_for_status.
  replace ((400 <=? status) && (status <? 600)) with true; [reflexivity|].
  symmetry. apply andb_true_iff. split; [apply Z.leb_le|apply Z.ltb_lt]; lia.
Qed.

Lemma raise_for_status_pass :
  forall status : Z,
    ~ 400 <= status < 600 -> raise_for_status status = Ok tt.
Proof.
  intros status H. unfold raise_for_status.
  destruct (400 <=? status) eqn:H1; [|reflexivity].
  destruct (status <? 600) eqn:H2; [|reflexivity].
  apply Z.leb_le in H1. apply Z.ltb_lt in H2. lia.
Qed.

(** C6 (amended): a page request fails when there is no reply
    (transport error), when the status of the reply is in 400..599, or
    when the body of a reply with another status does not decode; a
    reply with any other status and a body that decodes is taken as a
    page.  When a request that the paginator issues fails, the whole
    fetch raises the error of that request and returns no rows. *)
Theorem fetch_all_reports_fails :
  forall (w : world) (ticker : string) (size max_pages k : nat),
    In k (requested_pages w ticker size max_pages 0) ->
    (forall e, fetch_reports_page w ticker k size = Raise e ->
               fetch_all_reports w ticker size max_pages 0 = Raise e)
    /\ (forall e, report_list w ticker k size = NoReply e ->
                  fetch_all_reports w ticker size max_pages 0 = Raise e)
    /\ (forall status body,
          report_list w ticker k size = Reply status body ->
          400 <= status < 600 ->
          fetch_all_reports w ticker size max_pages 0 = Raise HTTPError)
    /\ (forall status e,
          report_list w ticker k size = Reply status (Raise e) ->
          ~ 400 <= status < 600 ->
          fetch_all_reports w ticker size max_pages 0 = Raise e)
    /\ (forall status js,
          report_list w ticker k size = Reply status (Ok js) ->
          ~ 400 <= status < 600 ->
          fetch_reports_page w ticker k size = Ok js)
    /\ (forall e,
          fetch_reports_page w ticker k size = Raise e
          <-> report_list w ticker k size = NoReply e
              \/ (exists status body,
                    report_list w ticker k size = Reply status body
                    /\ 400 <= status < 600 /\ e = HTTPError)
              \/ (exists status,
                    report_list w ticker k size = Reply status (Raise e)
                    /\ ~ 400 <= status < 600)).
Proof.
  intros w ticker size max_pages k Hin.
  destruct (fetch_loop_spec w ticker size max_pages 0 [] [])
    as (m & _ & Hlog & _ & _ & _ & Herr).
  simpl in *.
  assert (Hk : (k < m)%nat).
  { unfold requested_pages, fetch_all_reports_log in Hin.
    rewrite Hlog in Hin. apply in_seq in Hin. lia. }
  assert (Hraise : forall e, fetch_reports_page w ticker k size = Raise e ->
                     fetch_all_reports w ticker size max_pages 0 = Raise e).
  { intros e He. exact (Herr k e Hk He). }
  split; [exact Hraise|]. split; [|split; [|split; [|split]]].
  - intros e He. apply Hraise. unfold fetch_reports_page. now rewrite He.
  - intros status body He Hst. apply Hraise.
    unfold fetch_reports_page. rewrite He.
    now rewrite (raise_for_status_error status Hst).
  - intros status e He Hst. apply Hraise.
    unfold fetch_reports_page. rewrite He.
    now rewrite (raise_for_status_pass status Hst).
  - intros status js He Hst. unfold fetch_reports_page. rewrite He.
    now rewrite (raise_for_status_pass status Hst).
  - intros e. unfold fetch_reports_page.
    destruct (report_list w ticker k size) as [e0|status body] eqn:He.
    + split.
      * intros [= ->]. now left.
      * intros [[= ->]|[(st & bd & H & _)|(st & H & _)]];
          [reflexivity|discriminate|discriminate].
    + destruct (Z_le_dec 400 status) as [H1|H1];
        [destruct (Z_lt_dec status 600) as [H2|H2]|].
      * rewrite (raise_for_status_error status (conj H1 H2)). cbn [bind].
        split.
        -- intros [= <-]. right. left. now exists status, body.
        -- intros [H|[(st & bd & H & _ & ->)|(st & H & Hn)]];
             [discriminate|reflexivity|].
           injection H as -> _. exfalso. apply Hn. now split.
      * rewrite (raise_for_status_pass status) by lia. cbn [bind].
        split.
        -- intros ->. right. right. exists status. split; [reflexivity|lia].
        -- intros [H|[(st & bd & H & Hst & _)|(st & H & _)]];
             [discriminate| |].
           ++ injection H as -> _. lia.
           ++ now injection H as _ ->.
      * rewrite (raise_for_status_pass status) by lia. cbn [bind].
        split.
        -- intros ->. right. right. exists status. split; [reflexivity|lia].
        -- intros [H|[(st & bd & H & Hst & _)|(st & H & _)]];
             [discriminate| |].
           ++ injection H as -> _. lia.
           ++ now injection H as _ ->.
Qed.

(** A full first page, then status 500: the fetch raises, the row of the
    first page is not returned. *)
Lemma fetch_all_reports_fails_witness :
  requested_pages world_500 "VNM" 1 3 0 = [0; 1]%nat
  /\ fetch_all_reports world_500 "VNM" 1 3 0 = Raise HTTPError.
Proof.
  split; [reflexivity|].
  refine (proj1 (proj2 (proj2
            (fetch_all_reports_fails world_500 "VNM" 1 3 1 _)))
            500 (Ok (mkpage None None None)) eq_refl _).
  - simpl. right. left. reflexivity.
  - lia.
Defined.

(** C6 as stated fails for a status that is neither a success nor in
    400..599: a reply with status 302 and a body that decodes is taken
    as a page, and the fetch returns its row. *)
Lemma non_success_status_is_accepted :
  report_list world_redirect "VNM" 0 50
  = Reply 302 (Ok (mkpage (Some [report_A]) None None))
  /\ requested_pages world_redirect "VNM" 50 50 0 = [0%nat]
  /\ fetch_reports_page world_redirect "VNM" 0 50
     = Ok (mkpage (Some [report_A]) None None)
  /\ fetch_all_reports world_redirect "VNM" 50 50 0 = Ok [report_A].
Proof. repeat split; vm_compute; reflexivity. Qed.

Example pagination_stops_at_max_pages :
  requested_pages world_full "VNM" 1 3 0 = [0; 1; 2]%nat
  /\ fetch_all_reports world_full "VNM" 1 3 0
     = Ok [report_A; report_A; report_A].
Proof. split; reflexivity. Qed.

Example pagination_stops_at_short_page :
  requested_pages world_full "VNM" 2 3 0 = [0]%nat
  /\ fetch_all_reports world_full "VNM" 2 3 0 = Ok [report_A].
Proof. split; reflexivity. Qed.

Example pagination_of_no_page :
  requested_pages world_full "VNM" 1 0 0 = []
  /\ fetch_all_reports world_full "VNM" 1 0 0 = Ok [].
Proof. split; reflexivity. Qed.

(** ** Report aggregator *)

(** *** Equality of cells *)

Lemma SFeqb_finite_inv :
  forall s1 m1 e1 s2 m2 e2,
    SFeqb (S754_finite s1 m1 e1) (S754_finite s2 m2 e2) = true ->
    s1 = s2 /\ m1 = m2 /\ e1 = e2.
Proof.
  intros s1 m1 e1 s2 m2 e2. unfold SFeqb, SFcompare.
  generalize (Pos.compare_spec m1 m2).
  unfold Pos.compare, PosDef.Pos.compare.
  destruct s1, s2; try discriminate;
    destruct (Z.compare_spec e1 e2) as [He|He|He]; try discriminate;
    intros [Hm|Hm|Hm]; try discriminate; intros _; now subst.
Qed.

Lemma SFeqb_finite_refl :
  forall s m e, SFeqb (S754_finite s m e) (S754_finite s m e) = true.
Proof.
  intros s m e. unfold SFeqb, SFcompare.
  rewrite Z.compare_refl.
  change (PosDef.Pos.compare_cont Eq m m) with (Pos.compare m m).
  rewrite Pos.compare_refl. destruct s; reflexivity.
Qed.

Lemma SFeqb_trans :
  forall a b c, SFeqb a b = true -> SFeqb b c = true -> SFeqb a c = true.
Proof.
  intros a b c Hab Hbc.
  destruct a as [sa|sa| |sa ma ea], b as [sb|sb| |sb mb eb],
           c as [sc|sc| |sc mc ec];
    try (apply SFeqb_finite_inv in Hab; apply SFeqb_finite_inv in Hbc;
         destruct Hab as (-> & -> & ->); destruct Hbc as (-> & -> & ->);
         apply SFeqb_finite_refl);
    repeat match goal with s : bool |- _ => destruct s end;
    try discriminate Hab; try discriminate Hbc; reflexivity.
Qed.

Lemma jval_eqb_trans :
  forall a b c : jval,
    jval_eqb a b = true -> jval_eqb b c = true -> jval_eqb a c = true.
Proof.
  intros [|f|s] [|g|t] [|h|u]; simpl; try discriminate.
  - rewrite !eqb_spec. apply SFeqb_trans.
  - rewrite !String.eqb_eq. congruence.
Qed.

(** [unique] keeps one value of each kind, and [nunique] counts them. *)
Lemma nunique_length_unique :
  forall vals : list jval, nunique vals = List.length (unique vals).
Proof.
  induction vals as [|v vals IH]; [reflexivity|].
  simpl. destruct (existsb (jval_eqb v) vals); simpl; now rewrite IH.
Qed.

Lemma unique_incl :
  forall (vals : list jval) (v : jval), In v (unique vals) -> In v vals.
Proof.
  induction vals as [|w vals IH]; intros v H; [contradiction|].
  simpl in H. destruct (existsb (jval_eqb w) vals).
  - right. now apply IH.
  - destruct H as [->|H]; [now left|right; now apply IH].
Qed.

Lemma unique_all_distinct :
  forall vals : list jval, all_distinct (unique vals).
Proof.
  induction vals as [|v vals IH]; [exact I|].
  simpl. destruct (existsb (jval_eqb v) vals) eqn:Hex; [exact IH|].
  split; [|exact IH].
  intros u Hu. apply unique_incl in Hu.
  destruct (jval_eqb v u) eqn:Hvu; [|reflexivity].
  assert (existsb (jval_eqb v) vals = true)
    by (apply existsb_exists; now exists u).
  congruence.
Qed.

Lemma unique_covers :
  forall (vals : list jval) (v : jval),
    In v vals ->
    In v (unique vals)
    \/ exists u, In u (unique vals) /\ jval_eqb v u = true.
Proof.
  induction vals as [|w vals IH]; intros v H; [contradiction|].
  assert (Hrest : forall x, In x vals ->
            In x (unique (w :: vals))
            \/ exists u, In u (unique (w :: vals)) /\ jval_eqb x u = true).
  { intros x Hx. simpl.
    destruct (IH x Hx) as [Hin|(u & Hu & Hxu)];
      destruct (existsb (jval_eqb w) vals);
      [now left|left; now right|right; now exists u
      |right; exists u; split; [now right|exact Hxu]]. }
  destruct H as [->|H]; [|now apply Hrest].
  simpl. destruct (existsb (jval_eqb v) vals) eqn:Hex; [|left; now left].
  apply existsb_exists in Hex. destruct Hex as (x & Hx & Hvx).
  destruct (IH x Hx) as [Hin|(u & Hu & Hxu)].
  - right. now exists x.
  - right. exists u. split; [exact Hu|].
    now apply (jval_eqb_trans v x u).
Qed.

Lemma dropna_In :
  forall (cells : list (option jval)) (v : jval),
    In v (dropna cells) <-> exists c, In c cells /\ notna c = Some v.
Proof.
  induction cells as [|c cells IH]; intros v; simpl.
  - split; [contradiction|]. intros (c & H & _). contradiction.
  - destruct (notna c) as [u|] eqn:Hc; simpl; rewrite IH.
    + split.
      * intros [->|(c' & Hc' & Hn)]; [exists c; split; [now left|exact Hc]|].
        exists c'. split; [now right|exact Hn].
      * intros (c' & [->|Hc'] & Hn); [left; congruence|].
        right. now exists c'.
    + split.
      * intros (c' & Hc' & Hn). exists c'. split; [now right|exact Hn].
      * intros (c' & [->|Hc'] & Hn); [congruence|]. now exists c'.
Qed.

Lemma notna_counted :
  forall (r : RawReport) (v : jval),
    notna (source r) = Some v <-> counted_source r v.
Proof.
  intros r v. unfold counted_source, notna.
  destruct (source r) as [[|f|s]|]; split.
  - discriminate.
  - intros (H & Hn & _). injection H as <-. now contradiction Hn.
  - destruct (PyFloat.isnan f) eqn:Hf; [discriminate|].
    intros H. injection H as <-. split; [reflexivity|].
    split; [discriminate|]. intros g Hg. now injection Hg as <-.
  - intros (H & _ & Hf). injection H as <-.
    now rewrite (Hf f eq_refl).
  - intros H. injection H as <-. split; [reflexivity|].
    split; discriminate.
  - intros (H & _). now injection H as <-.
  - discriminate.
  - intros (H & _). discriminate.
Qed.

(** *** Dates *)

Lemma date_leb_iff :
  forall a b : date, date_leb a b = true <-> on_or_after a b.
Proof.
  intros a b. unfold date_leb, on_or_after.
  rewrite !orb_true_iff, !andb_true_iff, !orb_true_iff, !andb_true_iff.
  rewrite !Z.ltb_lt, !Z.eqb_eq, Z.leb_le. tauto.
Qed.

Lemma date_leb_trans :
  forall a b c : date,
    date_leb a b = true -> date_leb b c = true -> date_leb a c = true.
Proof.
  intros a b c. rewrite !date_leb_iff. unfold on_or_after. lia.
Qed.

(** What a cutoff is when there is one. *)
Lemma sub_years_ok :
  forall (d : date) (n : Z) (cutoff : date),
    sub_years d n = Ok cutoff ->
    MINYEAR <= year d - n <= MAXYEAR
    /\ cutoff = mkdate (year d - n) (month d)
                       (Z.min (day d) (days_in_month (year d - n) (month d))).
Proof.
  intros d n cutoff. unfold sub_years.
  destruct ((MINYEAR <=? year d - n) && (year d - n <=? MAXYEAR)) eqn:Hy;
    [|discriminate].
  intros H. injection H as <-.
  apply andb_true_iff in Hy. rewrite Z.leb_le, Z.leb_le in Hy.
  split; [exact Hy|reflexivity].
Qed.

Lemma sub_years_raise :
  forall (d : date) (n : Z) (e : exn),
    sub_years d n = Raise e ->
    e = ValueError /\ ~ (MINYEAR <= year d - n <= MAXYEAR).
Proof.
  intros d n e. unfold sub_years.
  destruct ((MINYEAR <=? year d - n) && (year d - n <=? MAXYEAR)) eqn:Hy;
    [discriminate|].
  intros H. injection H as <-. split; [reflexivity|].
  intros Hr. apply andb_false_iff in Hy.
  rewrite Z.leb_gt, Z.leb_gt in Hy. lia.
Qed.

Lemma digit_val_range :
  forall c, is_digit c = true -> 0 <= digit_val c <= 9.
Proof.
  intros c H. unfold is_digit in H. unfold digit_val.
  apply andb_true_iff in H. destruct H as [H1 H2].
  apply Nat.leb_le in H1. apply Nat.leb_le in H2. lia.
Qed.

Lemma digit_not_char :
  forall c x, is_digit c = true -> is_digit x = false -> Ascii.eqb c x = false.
Proof.
  intros c x Hc Hx. destruct (Ascii.eqb_spec c x) as [->|_]; [|reflexivity].
  congruence.
Qed.

Lemma days_in_month_range :
  forall y m, 28 <= days_in_month y m <= 31.
Proof.
  intros y m. unfold days_in_month.
  destruct (m =? 2); [destruct (is_leap y); lia|].
  destruct ((m =? 4) || (m =? 6) || (m =? 9) || (m =? 11)); lia.
Qed.

Lemma parse_day_range :
  forall f v, parse_day f = Some v -> 1 <= v.
Proof.
  intros f v. unfold parse_day.
  destruct f as [|a [|b [|x f]]]; try discriminate.
  - destruct (is_digit a && (1 <=? digit_val a)) eqn:H; [|discriminate].
    intros [= <-]. apply andb_true_iff in H. now apply Z.leb_le.
  - destruct (is_digit a && is_digit b).
    + destruct ((1 <=? 10 * digit_val a + digit_val b)
                && (10 * digit_val a + digit_val b <=? 31)) eqn:H;
        [|discriminate].
      intros [= <-]. apply andb_true_iff in H. now apply Z.leb_le.
    + destruct (Ascii.eqb a space && is_digit b && (1 <=? digit_val b))
        eqn:H; [|discriminate].
      intros [= <-]. apply andb_true_iff in H. now apply Z.leb_le.
Qed.

Lemma parse_month_range :
  forall f v, parse_month f = Some v -> 1 <= v <= 12.
Proof.
  intros f v. unfold parse_month.
  destruct f as [|a [|b [|x f]]]; try discriminate.
  - destruct (is_digit a && (1 <=? digit_val a)) eqn:H; [|discriminate].
    intros [= <-]. apply andb_true_iff in H. destruct H as [Ha H].
    apply Z.leb_le in H. pose proof (digit_val_range a Ha). lia.
  - destruct (is_digit a && is_digit b); [|discriminate].
    destruct ((1 <=? 10 * digit_val a + digit_val b)
              && (10 * digit_val a + digit_val b <=? 12)) eqn:H;
      [|discriminate].
    intros [= <-]. apply andb_true_iff in H.
    rewrite Z.leb_le, Z.leb_le in H. exact H.
Qed.

Lemma parse_year_range :
  forall f v, parse_year f = Some v -> 0 <= v <= 9999.
Proof.
  intros f v. unfold parse_year.
  destruct f as [|a [|b [|x [|y [|z f]]]]]; try discriminate.
  destruct (is_digit a && is_digit b && is_digit x && is_digit y) eqn:H;
    [|discriminate].
  intros Hv.
  apply (f_equal (fun o => match o with Some z => z | None => 0 end)) in Hv.
  cbv beta iota in Hv. subst v. rewrite !andb_true_iff in H.
  destruct H as [[[Ha Hb] Hx] Hy].
  pose proof (digit_val_range a Ha). pose proof (digit_val_range b Hb).
  pose proof (digit_val_range x Hx). pose proof (digit_val_range y Hy).
  lia.
Qed.

(** A date read under the format is a date of the calendar. *)
Lemma parse_dmy_valid :
  forall s d,
    parse_dmy s = Some d ->
    1 <= month d <= 12
    /\ 1 <= day d <= days_in_month (year d) (month d)
    /\ MINYEAR <= year d <= MAXYEAR.
Proof.
  intros s d. unfold parse_dmy.
  destruct (split_on slash (list_ascii_of_string s))
    as [|fd [|fm [|fy [|x l]]]]; try discriminate.
  destruct (parse_day fd) as [dd|] eqn:Hd; [|discriminate].
  destruct (parse_month fm) as [mm|] eqn:Hm; [|discriminate].
  destruct (parse_year fy) as [yy|] eqn:Hy; [|discriminate].
  destruct ((1 <=? yy) && (dd <=? days_in_month yy mm)) eqn:Hv;
    [|discriminate].
  intros [= <-]. simpl.
  apply andb_true_iff in Hv. rewrite Z.leb_le, Z.leb_le in Hv.
  apply parse_day_range in Hd. apply parse_month_range in Hm.
  apply parse_year_range in Hy. unfold MINYEAR, MAXYEAR. lia.
Qed.

(** The text DD/MM/YYYY of a date of the calendar reads as that date:
    the day first, the month second, the year last. *)
Lemma parse_dmy_text :
  forall d1 d2 m1 m2 y1 y2 y3 y4 : ascii,
    is_digit d1 = true -> is_digit d2 = true ->
    is_digit m1 = true -> is_digit m2 = true ->
    is_digit y1 = true -> is_digit y2 = true ->
    is_digit y3 = true -> is_digit y4 = true ->
    let dd := 10 * digit_val d1 + digit_val d2 in
    let mm := 10 * digit_val m1 + digit_val m2 in
    let yy := 1000 * digit_val y1 + 100 * digit_val y2
              + 10 * digit_val y3 + digit_val y4 in
    1 <= mm <= 12 -> 1 <= dd <= days_in_month yy mm -> 1 <= yy ->
    parse_dmy (dmy_text d1 d2 m1 m2 y1 y2 y3 y4) = Some (mkdate yy mm dd).
Proof.
  intros d1 d2 m1 m2 y1 y2 y3 y4 Hd1 Hd2 Hm1 Hm2 Hy1 Hy2 Hy3 Hy4
         dd mm yy Hmm Hdd Hyy.
  assert (Hs : forall c, is_digit c = true -> Ascii.eqb c slash = false)
    by (intros c Hc; apply digit_not_char; [exact Hc|reflexivity]).
  unfold parse_dmy, dmy_text. rewrite list_ascii_of_string_of_list_ascii.
  cbn [split_on].
  rewrite (Hs d1 Hd1), (Hs d2 Hd2), (Hs m1 Hm1), (Hs m2 Hm2),
          (Hs y1 Hy1), (Hs y2 Hy2), (Hs y3 Hy3), (Hs y4 Hy4).
  change (Ascii.eqb slash slash) with true. cbv iota.
  unfold parse_day, parse_month, parse_year.
  rewrite Hd1, Hd2, Hm1, Hm2, Hy1, Hy2, Hy3, Hy4. cbn [andb].
  fold dd. fold mm. fold yy.
  pose proof (days_in_month_range yy mm) as Hdim.
  replace ((1 <=? dd) && (dd <=? 31)) with true
    by (symmetry; apply andb_true_iff; rewrite Z.leb_le, Z.leb_le; lia).
  replace ((1 <=? mm) && (mm <=? 12)) with true
    by (symmetry; apply andb_true_iff; rewrite Z.leb_le, Z.leb_le; lia).
  replace ((1 <=? yy) && (dd <=? days_in_month yy mm)) with true
    by (symmetry; apply andb_true_iff; rewrite Z.leb_le, Z.leb_le; lia).
  reflexivity.
Qed.

(** What gives a date: the two words for the current time, and a text
    in the format. *)
Lemma to_datetime_inv :
  forall (c : clock) (cell : option jval) (d : date),
    to_datetime c cell = Some d ->
    exists s,
      cell = Some (JStr s)
      /\ (((s = "today" \/ s = "now") /\ d = local_today c)
          \/ (parse_dmy s = Some d
              /\ 1 <= month d <= 12
              /\ 1 <= day d <= days_in_month (year d) (month d)
              /\ MINYEAR <= year d <= MAXYEAR)).
Proof.
  intros c cell d. unfold to_datetime.
  destruct cell as [[|f|s]|]; try discriminate.
  intros H. exists s. split; [reflexivity|].
  destruct (String.eqb s "today") eqn:Ht.
  - left. apply String.eqb_eq in Ht. simpl in H. injection H as <-.
    split; [now left|reflexivity].
  - destruct (String.eqb s "now") eqn:Hn; simpl in H.
    + left. apply String.eqb_eq in Hn. injection H as <-.
      split; [now right|reflexivity].
    + right. split; [exact H|]. now apply parse_dmy_valid in H.
Qed.

Lemma to_datetime_dmy_text :
  forall (c : clock) (d1 d2 m1 m2 y1 y2 y3 y4 : ascii),
    is_digit d1 = true ->
    to_datetime c (Some (JStr (dmy_text d1 d2 m1 m2 y1 y2 y3 y4)))
    = parse_dmy (dmy_text d1 d2 m1 m2 y1 y2 y3 y4).
Proof.
  intros c d1 d2 m1 m2 y1 y2 y3 y4 Hd1. unfold to_datetime, dmy_text.
  cbn [string_of_list_ascii String.eqb].
  rewrite (digit_not_char d1 "t" Hd1 eq_refl),
          (digit_not_char d1 "n" Hd1 eq_refl).
  reflexivity.
Qed.

Section Aggregator.

Variable numeric_of_text : string -> float.

Lemma no_column_all_none :
  forall (key : RawReport -> option jval) (rows : list RawReport),
    has_column key rows = false -> forall r, In r rows -> key r = None.
Proof.
  intros key rows H r Hin. unfold has_column in H.
  destruct (key r) as [v|] eqn:Hk; [|reflexivity].
  assert (Hex : existsb (fun r => negb (is_none (key r))) rows = true).
  { apply existsb_exists. exists r. split; [exact Hin|]. now rewrite Hk. }
  congruence.
Qed.

Lemma no_issueDate_no_window :
  forall c cutoff rows,
    has_column issueDate rows = false -> window_1y c cutoff rows = [].
Proof.
  intros c cutoff rows H. unfold window_1y.
  pose proof (no_column_all_none issueDate rows H) as Hnone.
  induction rows as [|r rows IH]; [reflexivity|].
  simpl. unfold in_window at 1.
  rewrite (Hnone r (or_introl eq_refl)). simpl.
  apply IH.
  - unfold has_column in *. simpl in H. apply orb_false_iff in H. tauto.
  - intros r' Hr'. apply Hnone. now right.
Qed.

Lemma no_source_no_value :
  forall rows df,
    has_column source rows = false ->
    (forall r, In r df -> In r rows) ->
    dropna (map source df) = [].
Proof.
  intros rows df H Hsub.
  pose proof (no_column_all_none source rows H) as Hnone.
  induction df as [|r df IH]; [reflexivity|].
  simpl. rewrite (Hnone r (Hsub r (or_introl eq_refl))). simpl.
  apply IH. intros r' Hr'. apply Hsub. now right.
Qed.

(** With a cutoff, the aggregator returns the statistics of the
    window. *)
Lemma stats_with_cutoff :
  forall c rows lookback_years cutoff,
    cutoff_date c lookback_years = Ok cutoff ->
    build_one_year_report_stats numeric_of_text c rows lookback_years
    = Ok (window_stats numeric_of_text c cutoff rows).
Proof.
  intros c rows lb cutoff Hc.
  unfold build_one_year_report_stats, window_stats.
  destruct rows as [|r0 rows0] eqn:Hrows; [reflexivity|].
  rewrite <- Hrows.
  destruct (has_column issueDate rows) eqn:Hcol; cbn [negb].
  - rewrite Hc. cbn [bind].
    destruct (window_1y c cutoff rows) as [|r df] eqn:Hw; [reflexivity|].
    destruct (has_column source rows) eqn:Hsrc; [reflexivity|].
    assert (E : nunique (dropna (map source (r :: df))) = 0%nat).
    { rewrite (no_source_no_value rows (r :: df) Hsrc); [reflexivity|].
      intros r' Hr'. rewrite <- Hw in Hr'. unfold window_1y in Hr'.
      apply filter_In in Hr'. tauto. }
    cbv zeta. now rewrite E.
  - now rewrite (no_issueDate_no_window c cutoff rows Hcol).
Qed.

(** Without a cutoff, the aggregator returns only through one of its
    two early returns, and raises [ValueError] otherwise. *)
Lemma stats_without_cutoff :
  forall c rows lookback_years e,
    cutoff_date c lookback_years = Raise e ->
    build_one_year_report_stats numeric_of_text c rows lookback_years
    = match rows with
      | [] => Ok (None, 0%nat, 0%nat)
      | _ :: _ =>
          if has_column issueDate rows then Raise ValueError
          else Ok (None, 0%nat, 0%nat)
      end.
Proof.
  intros c rows lb e Hc. unfold build_one_year_report_stats.
  destruct rows as [|r0 rows0]; [reflexivity|].
  destruct (has_column issueDate (r0 :: rows0)); cbn [negb]; [|reflexivity].
  rewrite Hc. cbn [bind].
  apply sub_years_raise in Hc. now destruct Hc as [-> _].
Qed.

(** Whatever is returned is the statistics of a window. *)
Lemma stats_ok_inv :
  forall c rows lookback_years s,
    build_one_year_report_stats numeric_of_text c rows lookback_years = Ok s ->
    exists cutoff, s = window_stats numeric_of_text c cutoff rows.
Proof.
  intros c rows lb s Hs.
  destruct (cutoff_date c lb) as [cutoff|e] eqn:Hc.
  - exists cutoff. rewrite (stats_with_cutoff c rows lb cutoff Hc) in Hs.
    now injection Hs as <-.
  - exists (local_today c).
    rewrite (stats_without_cutoff c rows lb e Hc) in Hs.
    unfold window_stats.
    destruct rows as [|r0 rows0]; [now injection Hs as <-|].
    destruct (has_column issueDate (r0 :: rows0)) eqn:Hcol; [discriminate|].
    injection Hs as <-.
    now rewrite (no_issueDate_no_window c (local_today c) _ Hcol).
Qed.

Lemma window_stats_count :
  forall c cutoff rows,
    reportCount (window_stats numeric_of_text c cutoff rows)
    = List.length (window_1y c cutoff rows).
Proof.
  intros c cutoff rows. unfold window_stats.
  destruct (window_1y c cutoff rows); reflexivity.
Qed.

Lemma in_window_iff :
  forall c cutoff r,
    in_window c cutoff r = true
    <-> exists d, to_datetime c (issueDate r) = Some d
                  /\ on_or_after cutoff d.
Proof.
  intros c cutoff r. unfold in_window.
  destruct (to_datetime c (issueDate r)) as [d|]; split.
  - intros H. exists d. split; [reflexivity|now apply date_leb_iff].
  - intros (d' & Hd & H). injection Hd as <-. now apply date_leb_iff.
  - discriminate.
  - intros (d' & Hd & _). discriminate.
Qed.

(** C3 (amended): with a cutoff, the window keeps exactly the records
    whose issue date is read as a date on or after the cutoff.  The
    cutoff is the local date of the machine (not the UTC date) minus
    [lookback_years] years, the day clipped to the length of the month,
    and there is one only when its year is in 1..9999; the dates read
    are those of a text
    DD/MM/YYYY of the calendar (day first, month second) and, for the
    words [today] and [now], the current local date.  The report count is
    the size of the window, and a record whose issue date is not read as
    a date adds nothing to it, whatever its target price. *)
Theorem window_filter_local_cutoff :
  forall (c : clock) (rows : list RawReport) (lookback_years : Z)
         (cutoff : date),
    cutoff_date c lookback_years = Ok cutoff ->
    cutoff = mkdate (year (local_today c) - lookback_years)
                    (month (local_today c))
                    (Z.min (day (local_today c))
                           (days_in_month
                              (year (local_today c) - lookback_years)
                              (month (local_today c))))
    /\ 1 <= year (local_today c) - lookback_years <= 9999
    /\ (forall r,
          In r (window_1y c cutoff rows)
          <-> In r rows
              /\ exists d, to_datetime c (issueDate r) = Some d
                           /\ on_or_after cutoff d)
    /\ (exists s,
          build_one_year_report_stats numeric_of_text c rows lookback_years
          = Ok s
          /\ reportCount s = List.length (window_1y c cutoff rows))
    /\ (forall r before after,
          to_datetime c (issueDate r) = None ->
          List.length (window_1y c cutoff (before ++ r :: after))
          = List.length (window_1y c cutoff (before ++ after)))
    /\ (forall cell d,
          to_datetime c cell = Some d ->
          exists s,
            cell = Some (JStr s)
            /\ (((s = "today" \/ s = "now") /\ d = local_today c)
                \/ (parse_dmy s = Some d
                    /\ 1 <= month d <= 12
                    /\ 1 <= day d <= days_in_month (year d) (month d)
                    /\ MINYEAR <= year d <= MAXYEAR)))
    /\ to_datetime c (Some (JStr "today")) = Some (local_today c)
    /\ to_datetime c (Some (JStr "now")) = Some (local_today c)
    /\ (forall d1 d2 m1 m2 y1 y2 y3 y4 : ascii,
          is_digit d1 = true -> is_digit d2 = true ->
          is_digit m1 = true -> is_digit m2 = true ->
          is_digit y1 = true -> is_digit y2 = true ->
          is_digit y3 = true -> is_digit y4 = true ->
          let dd := 10 * digit_val d1 + digit_val d2 in
          let mm := 10 * digit_val m1 + digit_val m2 in
          let yy := 1000 * digit_val y1 + 100 * digit_val y2
                    + 10 * digit_val y3 + digit_val y4 in
          1 <= mm <= 12 -> 1 <= dd <= days_in_month yy mm -> 1 <= yy ->
          to_datetime c (Some (JStr (dmy_text d1 d2 m1 m2 y1 y2 y3 y4)))
          = Some (mkdate yy mm dd)).
Proof.
  intros c rows lb cutoff Hc.
  split; [exact (proj2 (sub_years_ok _ _ _ Hc))|].
  split; [exact (proj1 (sub_years_ok _ _ _ Hc))|].
  split.
  { intros r. unfold window_1y. rewrite filter_In.
    now rewrite in_window_iff. }
  split.
  { exists (window_stats numeric_of_text c cutoff rows).
    split; [now apply stats_with_cutoff|apply window_stats_count]. }
  split.
  { intros r before after Hr. unfold window_1y. rewrite !filter_app.
    cbn [filter]. unfold in_window at 2. now rewrite Hr. }
  split; [intros cell d; apply to_datetime_inv|].
  split; [reflexivity|]. split; [reflexivity|].
  intros d1 d2 m1 m2 y1 y2 y3 y4 Hd1 Hd2 Hm1 Hm2 Hy1 Hy2 Hy3 Hy4
         dd mm yy Hmm Hdd Hyy.
  rewrite to_datetime_dmy_text by exact Hd1.
  now apply parse_dmy_text.
Qed.

Lemma window_with_target :
  forall c cutoff (f : RawReport -> option jval) rows,
    window_1y c cutoff (map (fun r => with_target (f r) r) rows)
    = map (fun r => with_target (f r) r) (window_1y c cutoff rows).
Proof.
  intros c cutoff f rows. unfold window_1y.
  induction rows as [|r rows IH]; [reflexivity|].
  cbn [map filter].
  change (in_window c cutoff (with_target (f r) r))
    with (in_window c cutoff r).
  destruct (in_window c cutoff r); [|exact IH].
  cbn [map]. now rewrite IH.
Qed.

Lemma skipna_all_nan :
  forall vals : list float,
    (forall v, In v vals -> PyFloat.isnan v = true) -> skipna vals = [].
Proof.
  induction vals as [|v vals IH]; intros H; [reflexivity|].
  unfold skipna in *. simpl. rewrite (H v (or_introl eq_refl)). simpl.
  apply IH. intros v' Hv'. apply H. now right.
Qed.

(** The mean, written with the prices that are numbers. *)
Lemma mean_of_numbers :
  forall vals : list float,
    mean vals
    = match skipna vals with
      | [] => PyFloat.nan
      | _ :: _ =>
          PrimFloat.div (numpy_sum (fill_na vals))
                        (float_of_nat (List.length (skipna vals)))
      end.
Proof.
  intros vals. unfold mean. destruct (skipna vals); reflexivity.
Qed.

(** The distinct sources of a frame, one of each kind. *)
Lemma distinct_sources :
  forall df : list RawReport,
    nunique (dropna (map source df))
    = List.length (unique (dropna (map source df)))
    /\ all_distinct (unique (dropna (map source df)))
    /\ (forall u, In u (unique (dropna (map source df))) ->
                  exists r, In r df /\ counted_source r u)
    /\ (forall r v, In r df -> counted_source r v ->
                    In v (unique (dropna (map source df)))
                    \/ exists u, In u (unique (dropna (map source df)))
                                 /\ jval_eqb v u = true).
Proof.
  intros df.
  split; [apply nunique_length_unique|].
  split; [apply unique_all_distinct|].
  split.
  - intros u Hu. apply unique_incl in Hu. apply dropna_In in Hu.
    destruct Hu as (cell & Hcell & Hn). apply in_map_iff in Hcell.
    destruct Hcell as (r & <- & Hr). exists r.
    split; [exact Hr|now apply notna_counted].
  - intros r v Hr Hv. apply unique_covers. apply dropna_In.
    exists (source r). split; [now apply in_map|now apply notna_counted].
Qed.

(** C4 (amended): with a cutoff and a window that is not empty, the
    report count is the size of the window, so it is positive; the
    diversity is the number of distinct sources of the window that are
    not null, which is 0 when there is none; both are the same whatever
    the target prices are.  The average is the mean of the target prices
    that coerce to a number: their sum, taken as numpy takes it over the
    window with 0 in the place of the other prices, divided by their
    number; it is null when no price is a number, and when that quotient
    is itself not-a-number.  The example of the specification gives
    (110, 2, 2), and ten prices of 0.1 give the average 0.1. *)
Theorem stats_of_window :
  forall (c : clock) (rows : list RawReport) (lookback_years : Z)
         (cutoff : date),
    cutoff_date c lookback_years = Ok cutoff ->
    window_1y c cutoff rows <> [] ->
    let df := window_1y c cutoff rows in
    let prices :=
      map (fun r => to_numeric numeric_of_text (targetPrice r)) df in
    let distinct := unique (dropna (map source df)) in
    (exists s,
       build_one_year_report_stats numeric_of_text c rows lookback_years
       = Ok s
       /\ reportCount s = List.length df
       /\ (0 < reportCount s)%nat
       /\ sourceDiversity s = List.length distinct
       /\ averageTarget s
          = match skipna prices with
            | [] => None
            | _ :: _ =>
                none_if_na
                  (PrimFloat.div (numpy_sum (fill_na prices))
                                 (float_of_nat (List.length (skipna prices))))
            end
       /\ ((forall r, In r df ->
              PyFloat.isnan (to_numeric numeric_of_text (targetPrice r))
              = true) ->
           averageTarget s = None)
       /\ (forall f : RawReport -> option jval,
             exists s',
               build_one_year_report_stats
                 numeric_of_text c
                 (map (fun r => with_target (f r) r) rows) lookback_years
               = Ok s'
               /\ reportCount s' = reportCount s
               /\ sourceDiversity s' = sourceDiversity s))
    /\ all_distinct distinct
    /\ (forall u, In u distinct -> exists r, In r df /\ counted_source r u)
    /\ (forall r v, In r df -> counted_source r v ->
                    In v distinct
                    \/ exists u, In u distinct /\ jval_eqb v u = true)
    /\ build_one_year_report_stats numeric_of_text june_1_2024
         [report_A; report_B; report_old] 1
       = Ok (Some 110%float, 2%nat, 2%nat)
    /\ build_one_year_report_stats numeric_of_text june_1_2024
         ten_reports 1
       = Ok (Some 0.1%float, 1%nat, 10%nat).
Proof.
  intros c rows lb cutoff Hc Hne. cbv zeta.
  pose proof (stats_with_cutoff c rows lb cutoff Hc) as Hb.
  assert (Hmap : forall f : RawReport -> option jval,
            build_one_year_report_stats
              numeric_of_text c (map (fun r => with_target (f r) r) rows) lb
            = Ok match map (fun r => with_target (f r) r)
                           (window_1y c cutoff rows)
                 with
                 | [] => (None, 0%nat, 0%nat)
                 | df =>
                     (none_if_na
                        (mean (map (fun r => to_numeric numeric_of_text
                                                        (targetPrice r)) df)),
                      nunique (dropna (map source df)), List.length df)
                 end).
  { intros f. rewrite (stats_with_cutoff c _ lb cutoff Hc).
    unfold window_stats. now rewrite window_with_target. }
  unfold window_stats in Hb.
  destruct (distinct_sources (window_1y c cutoff rows))
    as (Hnu & Hdis & Hfrom & Hcov).
  destruct (window_1y c cutoff rows) as [|r0 df0] eqn:Hw; [contradiction|].
  split; [|split; [exact Hdis|split; [exact Hfrom|split; [exact Hcov|]]]].
  2: { split; vm_compute; reflexivity. }
  eexists. split; [exact Hb|].
  unfold reportCount, sourceDiversity, averageTarget. cbn [fst snd].
  split; [reflexivity|].
  split; [simpl; lia|].
  split; [exact Hnu|].
  assert (Havg :
            none_if_na
              (mean (map (fun r => to_numeric numeric_of_text (targetPrice r))
                         (r0 :: df0)))
            = match
                skipna (map (fun r => to_numeric numeric_of_text
                                                 (targetPrice r))
                            (r0 :: df0))
              with
              | [] => None
              | _ :: _ =>
                  none_if_na
                    (PrimFloat.div
                       (numpy_sum
                          (fill_na
                             (map (fun r => to_numeric numeric_of_text
                                                       (targetPrice r))
                                  (r0 :: df0))))
                       (float_of_nat
                          (List.length
                             (skipna
                                (map (fun r => to_numeric numeric_of_text
                                                          (targetPrice r))
                                     (r0 :: df0))))))
              end).
  { rewrite mean_of_numbers. destruct (skipna _); reflexivity. }
  split; [exact Havg|].
  split.
  - intros Hall. rewrite Havg.
    rewrite skipna_all_nan; [reflexivity|].
    intros v Hv. apply in_map_iff in Hv. destruct Hv as (r & <- & Hr).
    now apply Hall.
  - intros f. eexists. split; [exact (Hmap f)|].
    cbn [map]. cbn [fst snd]. split.
    + cbn [List.length]. f_equal. apply length_map.
    + f_equal. f_equal.
      exact (map_map (fun r => with_target (f r) r) source (r0 :: df0)).
Qed.

(** C8: a report count of zero comes with a null average and a
    diversity of zero in every triple the aggregator returns; an empty
    input, an input without issue dates and an input with no record in
    the window all give the null average, diversity 0 and count 0. *)
Theorem stats_zero_invariant :
  forall (c : clock) (rows : list RawReport) (lookback_years : Z),
    (forall s,
       build_one_year_report_stats numeric_of_text c rows lookback_years
       = Ok s ->
       reportCount s = 0%nat ->
       averageTarget s = None /\ sourceDiversity s = 0%nat)
    /\ (rows = [] ->
        build_one_year_report_stats numeric_of_text c rows lookback_years
        = Ok (None, 0%nat, 0%nat))
    /\ (has_column issueDate rows = false ->
        build_one_year_report_stats numeric_of_text c rows lookback_years
        = Ok (None, 0%nat, 0%nat))
    /\ (forall cutoff,
          cutoff_date c lookback_years = Ok cutoff ->
          window_1y c cutoff rows = [] ->
          build_one_year_report_stats numeric_of_text c rows lookback_years
          = Ok (None, 0%nat, 0%nat)).
Proof.
  intros c rows lb. split; [|split; [|split]].
  - intros s Hs Hcount. apply stats_ok_inv in Hs.
    destruct Hs as (cutoff & ->). revert Hcount. unfold window_stats.
    destruct (window_1y c cutoff rows); [now split|].
    unfold reportCount. simpl. discriminate.
  - intros ->. reflexivity.
  - intros H. unfold build_one_year_report_stats.
    destruct rows; [reflexivity|]. now rewrite H.
  - intros cutoff Hc Hw. rewrite (stats_with_cutoff c rows lb cutoff Hc).
    unfold window_stats. now rewrite Hw.
Qed.

End Aggregator.

(** The example of the specification: two reports in the window, one
    outside. *)
Example stats_example :
  build_one_year_report_stats no_text_number june_1_2024
    [report_A; report_B; report_old] 1
  = Ok (Some 110%float, 2%nat, 2%nat).
Proof. vm_compute. reflexivity. Qed.

Example stats_bad_date_not_counted :
  build_one_year_report_stats no_text_number june_1_2024
    [report_A; report_bad_date] 1
  = Ok (Some 100%float, 1%nat, 1%nat).
Proof. vm_compute. reflexivity. Qed.

Example stats_no_numeric_target :
  build_one_year_report_stats no_text_number june_1_2024
    [report_no_target; report_old] 1
  = Ok (None, 1%nat, 1%nat).
Proof. vm_compute. reflexivity. Qed.

Example stats_today_is_counted :
  build_one_year_report_stats no_text_number june_1_2024
    [mkreport (Some (JStr "today")) (Some (JNum 1%float)) (Some (JStr "A"));
     mkreport (Some (JStr "now")) (Some (JNum 2%float)) (Some (JStr "B"))] 1
  = Ok (Some 1.5%float, 2%nat, 2%nat).
Proof. vm_compute. reflexivity. Qed.

Example stats_cutoff_out_of_range :
  build_one_year_report_stats no_text_number june_1_2024
    [report_A] 2030
  = Raise ValueError.
Proof. vm_compute. reflexivity. Qed.

Example cutoff_leap_day :
  sub_years (mkdate 2024 2 29) 1 = Ok (mkdate 2023 2 28).
Proof. reflexivity. Qed.

(** C3 as stated fails: on a machine ahead of UTC, in the evening, a
    report dated exactly one year before the UTC date parses and is on
    the UTC cutoff, and still it is not counted. *)
Lemma utc_cutoff_not_used :
  to_datetime evening_utc_plus_7 (issueDate report_june_1_2023)
  = Some (mkdate 2023 6 1)
  /\ sub_years (utc_today evening_utc_plus_7) 1 = Ok (mkdate 2023 6 1)
  /\ date_leb (mkdate 2023 6 1) (mkdate 2023 6 1) = true
  /\ build_one_year_report_stats
       no_text_number evening_utc_plus_7 [report_june_1_2023] 1
     = Ok (None, 0%nat, 0%nat).
Proof. repeat split; vm_compute; reflexivity. Qed.

Lemma window_filter_local_cutoff_witness :
  In report_A (window_1y june_1_2024 (mkdate 2023 6 1)
                 [report_A; report_bad_date; report_old])
  /\ exists s,
       build_one_year_report_stats no_text_number june_1_2024
         [report_A; report_bad_date; report_old] 1 = Ok s
       /\ reportCount s
          = List.length (window_1y june_1_2024 (mkdate 2023 6 1)
                           [report_A; report_bad_date; report_old]).
Proof.
  pose proof (window_filter_local_cutoff no_text_number june_1_2024
                [report_A; report_bad_date; report_old] 1
                (mkdate 2023 6 1) eq_refl) as H.
  destruct H as (_ & _ & Hwin & Hcount & _).
  split; [|exact Hcount].
  apply Hwin. split; [now left|].
  exists (mkdate 2024 1 1). split; [reflexivity|].
  unfold on_or_after. simpl. lia.
Defined.

(** C4 as stated fails: a window of one report without source and
    without price has a positive report count and a diversity of 0. *)
Lemma diversity_can_be_zero :
  window_1y june_1_2024 (mkdate 2023 6 1) [report_bare] = [report_bare]
  /\ build_one_year_report_stats no_text_number june_1_2024
       [report_bare] 1
     = Ok (None, 0%nat, 1%nat).
Proof. split; vm_compute; reflexivity. Qed.

Lemma stats_of_window_witness :
  exists s,
    build_one_year_report_stats no_text_number june_1_2024
      [report_A; report_no_target; report_old] 1 = Ok s
    /\ (0 < reportCount s)%nat
    /\ averageTarget s = Some 100%float.
Proof.
  assert (Hne : window_1y june_1_2024 (mkdate 2023 6 1)
                  [report_A; report_no_target; report_old] <> [])
    by (vm_compute; discriminate).
  pose proof (stats_of_window no_text_number june_1_2024
                [report_A; report_no_target; report_old] 1
                (mkdate 2023 6 1) eq_refl Hne) as H.
  cbv zeta in H. destruct H as ((s & Hs & _ & Hpos & _ & Havg & _) & _).
  exists s. split; [exact Hs|]. split; [exact Hpos|].
  rewrite Havg. vm_compute. reflexivity.
Defined.

(** ** The batch loop *)

Section Batch.

Variable numeric_of_text : string -> float.
Variable w : world.



(** The row of a ticker, field by field. *)
Lemma process_ticker_closed_form :
  forall ticker,
    process_ticker numeric_of_text w ticker
    = let cp := match fetch_current_price w ticker with
                | Ok p => Some p
                | Raise _ => None
                end in
      let ptag := match fetch_current_price w ticker with
                  | Ok _ => ""
                  | Raise e => price_err e
                  end in
      match
        raw <- fetch_all_reports w ticker PAGE_SIZE MAX_PAGES 0 ;;
        build_one_year_report_stats numeric_of_text (now w ticker) raw
                                    LOOKBACK_YEARS
      with
      | Raise e =>
          mkrow ticker cp None 0 None None 0 (ptag ++ report_err e)%string
      | Ok s =>
          match averageTarget s with
          | Some avg =>
              let report_eval := PrimFloat.mul avg REPORT_FACTOR in
              mkrow ticker cp (Some report_eval) (sourceDiversity s)
                    (Some (PrimFloat.mul report_eval BARGAIN_FACTOR))
                    match cp with
                    | Some p =>
                        if PyFloat.eq_zero report_eval
                           || PyFloat.isnan report_eval
                        then None
                        else Some (PrimFloat.div p report_eval)
                    | None => None
                    end
                    (reportCount s) ptag
          | None =>
              mkrow ticker cp None (sourceDiversity s) None None
                    (reportCount s) (ptag ++ no_reports_tag)%string
          end
      end.
Proof.
  intros ticker. unfold process_ticker, reports_block.
  destruct (fetch_all_reports w ticker PAGE_SIZE MAX_PAGES 0) as [raw|e];
    cbn [bind].
  - destruct (build_one_year_report_stats numeric_of_text (now w ticker)
                                          raw LOOKBACK_YEARS)
      as [[[avg diversity] n]|e] eqn:Hs.
    + unfold averageTarget, sourceDiversity, reportCount. cbn [fst snd].
      destruct avg as [avg|].
      * rewrite safe_ratio_value.
        destruct (fetch_current_price w ticker) as [p|e]; reflexivity.
      * destruct (fetch_current_price w ticker) as [p|e]; reflexivity.
    + destruct (fetch_current_price w ticker) as [p|e']; reflexivity.
  - destruct (fetch_current_price w ticker) as [p|e']; reflexivity.
Qed.


Lemma tags_distinct :
  forall e e' : exn,
    price_err e <> report_err e'
    /\ price_err e <> no_reports_tag
    /\ report_err e <> no_reports_tag.
Proof. intros e e'. repeat split; discriminate. Qed.


(** C10: when the reports of a ticker give an average target, the row
    carries the report evaluation, which is the average x 0.9, and the
    acceptable purchase price, which is the evaluation x 0.8, whether or
    not the price was fetched; when the price fetch failed the current
    price and the ratio of that row are null, and the error field holds
    the tag of the price failure alone. *)
Theorem evaluation_without_price :
  forall (ticker : string) (raw : list RawReport)
         (s : option float * nat * nat) (avg : float),
    fetch_all_reports w ticker 50 50 0 = Ok raw ->
    build_one_year_report_stats numeric_of_text (now w ticker) raw 1
    = Ok s ->
    averageTarget s = Some avg ->
    let row := process_ticker numeric_of_text w ticker in
    Report_Evaluation row = Some (PrimFloat.mul avg 0.9%float)
    /\ Acceptable_Purchase_Price row
       = Some (PrimFloat.mul (PrimFloat.mul avg 0.9%float) 0.8%float)
    /\ (forall e,
          fetch_current_price w ticker = Raise e ->
          Current_Price row = None /\ Ratio row = None
          /\ Errors row = ("price_err:" ++ exn_name e ++ "; ")%string).
Proof.
  intros ticker raw s avg Hraw Hs Havg row. unfold row.
  rewrite process_ticker_closed_form. cbv zeta.
  change PAGE_SIZE with 50%nat. change MAX_PAGES with 50%nat.
  change LOOKBACK_YEARS with 1.
  rewrite Hraw. cbn [bind]. rewrite Hs, Havg. cbn.
  split; [reflexivity|]. split; [reflexivity|].
  intros e He. rewrite He. repeat split; reflexivity.
Qed.

End Batch.

(** The quote endpoint times out, the reports average 110: evaluation
    and acceptable price are set, current price and ratio are null. *)
Lemma evaluation_without_price_witness :
  Report_Evaluation (process_ticker no_text_number world_no_quote "VNM")
  = Some (PrimFloat.mul 110%float 0.9%float)
  /\ Ratio (process_ticker no_text_number world_no_quote "VNM") = None
  /\ Errors (process_ticker no_text_number world_no_quote "VNM")
     = "price_err:ReadTimeout; ".
Proof.
  assert (Hraw : fetch_all_reports world_no_quote "VNM" 50 50 0
                 = Ok [report_A; report_B; report_old])
    by (vm_compute; reflexivity).
  assert (Hs : build_one_year_report_stats
                 no_text_number (now world_no_quote "VNM")
                 [report_A; report_B; report_old] 1
               = Ok (Some 110%float, 2%nat, 2%nat))
    by (vm_compute; reflexivity).
  pose proof (evaluation_without_price no_text_number world_no_quote "VNM"
                _ _ 110%float Hraw Hs eq_refl) as H.
  cbv zeta in H. destruct H as (Hev & _ & Hprice).
  destruct (Hprice ReadTimeout eq_refl) as (_ & Hratio & Herr).
  split; [exact Hev|]. split; [exact Hratio|exact Herr].
Defined.

Example batch_rows_no_quote :
  map Errors (main_loop no_text_number world_no_quote ["VNM"; "FPT"])
  = ["price_err:ReadTimeout; "; "price_err:ReadTimeout; "]
  /\ map Reports_1Y (main_loop no_text_number world_no_quote ["VNM"; "FPT"])
     = [2; 2]%nat.
Proof. split; vm_compute; reflexivity. Qed.

(** ** Row formatter: numbers as text *)

Lemma abs_fraction_pos :
  forall m e num den,
    abs_fraction m e = (num, den) -> 0 < num /\ 0 < den.
Proof.
  intros m e num den. unfold abs_fraction.
  destruct (0 <=? e) eqn:He; intros H; injection H as <- <-.
  - apply Z.leb_le in He.
    assert (0 < 2 ^ e) by (apply Z.pow_pos_nonneg; lia).
    pose proof (Z.mul_pos_pos (Z.pos m) (2 ^ e) ltac:(lia) ltac:(lia)) as Hm.
    split; [exact Hm|lia].
  - apply Z.leb_gt in He.
    assert (0 < 2 ^ (- e)) by (apply Z.pow_pos_nonneg; lia).
    split; lia.
Qed.

(** Rounding half to even gives the nearest integer, and the even one
    of the two nearest on a tie. *)
Lemma round_half_even_nearest :
  forall num den,
    0 <= num -> 0 < den ->
    0 <= round_half_even num den
    /\ nearest_ties_to_even num den (round_half_even num den).
Proof.
  intros num den Hnum Hden.
  unfold round_half_even, nearest_ties_to_even, nearest_integer.
  pose proof (Z.div_mod num den ltac:(lia)) as Hdm.
  pose proof (Z.mod_pos_bound num den Hden) as Hr.
  pose proof (Z.div_pos num den Hnum Hden) as Hq.
  set (q := num / den) in *. set (r := num mod den) in *.
  destruct (2 * r <? den) eqn:H1.
  - apply Z.ltb_lt in H1. split; [lia|].
    replace (num - q * den) with r by lia. split; lia.
  - apply Z.ltb_ge in H1. destruct (den <? 2 * r) eqn:H2.
    + apply Z.ltb_lt in H2. split; [lia|].
      replace (num - (q + 1) * den) with (r - den) by lia. split; lia.
    + apply Z.ltb_ge in H2. destruct (Z.even q) eqn:Hev.
      * split; [lia|]. split; [lia|intros _; exact Hev].
      * split; [lia|]. split; [lia|intros _].
        rewrite Z.add_1_r, Z.even_succ, <- Z.negb_even, Hev. reflexivity.
Qed.

Lemma string_of_uint_digits :
  forall d : Decimal.uint,
    Forall (fun c => is_digit c = true)
           (list_ascii_of_string (NilEmpty.string_of_uint d)).
Proof.
  induction d; simpl; constructor; try reflexivity; assumption.
Qed.

Lemma decimal_digits :
  forall n : Z, Forall (fun c => is_digit c = true) (decimal n).
Proof.
  intros n. unfold decimal, NilZero.string_of_uint.
  destruct (N.to_uint (Z.to_N n)) eqn:Hd;
    try (rewrite <- Hd; apply string_of_uint_digits).
  simpl. constructor; [reflexivity|constructor].
Qed.

Lemma digit_not_comma :
  forall c, is_digit c = true -> negb (Ascii.eqb c comma) = true.
Proof.
  intros c H. destruct (Ascii.eqb_spec c comma) as [->|_]; [|reflexivity].
  discriminate H.
Qed.

Lemma digit_char_is_digit :
  forall d, 0 <= d <= 9 -> is_digit (digit_char d) = true.
Proof.
  intros d Hd. unfold is_digit, digit_char.
  rewrite nat_ascii_embedding by lia.
  apply andb_true_iff. split; apply Nat.leb_le; lia.
Qed.

(** Taking the commas out of a grouped list of digits gives the digits
    back. *)
Lemma group3_strip :
  forall n l,
    (List.length l <= n)%nat ->
    Forall (fun c => is_digit c = true) l ->
    filter (fun c => negb (Ascii.eqb c comma)) (group3 l) = l.
Proof.
  induction n as [|n IH]; intros l Hlen Hdig.
  - destruct l; [reflexivity|simpl in Hlen; lia].
  - destruct l as [|a [|b [|c [|d rest]]]].
    + reflexivity.
    + inversion Hdig; subst. simpl. now rewrite digit_not_comma.
    + inversion Hdig as [|? ? Ha Hdig1]; subst.
      inversion Hdig1; subst. simpl. now rewrite !digit_not_comma.
    + inversion Hdig as [|? ? Ha Hdig1]; subst.
      inversion Hdig1 as [|? ? Hb Hdig2]; subst.
      inversion Hdig2; subst. simpl. now rewrite !digit_not_comma.
    + inversion Hdig as [|? ? Ha Hdig1]; subst.
      inversion Hdig1 as [|? ? Hb Hdig2]; subst.
      inversion Hdig2 as [|? ? Hc Hdig3]; subst.
      change (group3 (a :: b :: c :: d :: rest))
        with (a :: b :: c :: comma :: group3 (d :: rest)).
      cbn [filter].
      rewrite (digit_not_comma a Ha), (digit_not_comma b Hb),
              (digit_not_comma c Hc).
      change (negb (Ascii.eqb comma comma)) with false. cbv iota.
      rewrite (IH (d :: rest)); [reflexivity| |exact Hdig3].
      simpl in Hlen |- *. lia.
Qed.

Lemma digit_neq_comma :
  forall c, is_digit c = true -> c <> comma.
Proof. intros c H ->. discriminate H. Qed.

(** In a grouped list of digits the commas are at the places 3, 7,
    11, ... counted from the least significant digit. *)
Lemma group3_separators :
  forall n l,
    (List.length l <= n)%nat ->
    Forall (fun c => is_digit c = true) l ->
    separators_every_three (group3 l).
Proof.
  induction n as [|n IH]; intros l Hlen Hdig i Hi.
  - destruct l; simpl in *; lia.
  - destruct l as [|a l1]; [simpl in Hi; lia|].
    inversion Hdig as [|? ? Ha Hdig1]; subst.
    pose proof (digit_neq_comma a Ha) as Na.
    destruct l1 as [|b l2].
    { simpl in Hi. assert (i = 0)%nat by lia. subst i.
      simpl. split; [contradiction|discriminate]. }
    inversion Hdig1 as [|? ? Hb Hdig2]; subst.
    pose proof (digit_neq_comma b Hb) as Nb.
    destruct l2 as [|c l3].
    { simpl in Hi. destruct i as [|[|i]]; [| |lia];
        simpl; (split; [contradiction|discriminate]). }
    inversion Hdig2 as [|? ? Hc Hdig3]; subst.
    pose proof (digit_neq_comma c Hc) as Nc.
    destruct l3 as [|d rest].
    { simpl in Hi. destruct i as [|[|[|i]]]; [| | |lia];
        simpl; (split; [contradiction|discriminate]). }
    change (group3 (a :: b :: c :: d :: rest))
      with (a :: b :: c :: comma :: group3 (d :: rest)) in Hi |- *.
    destruct i as [|[|[|[|j]]]];
      try (simpl; split; [contradiction|discriminate]).
    + simpl. split; reflexivity.
    + cbn [nth]. cbn [List.length] in Hi.
      replace (S (S (S (S j)))) with (j + 1 * 4)%nat by lia.
      rewrite Nat.Div0.mod_add.
      apply (IH (d :: rest)); [simpl in Hlen |- *; lia|exact Hdig3|lia].
Qed.

(** The text of an integer with separators, its commas taken out, is the
    sign and the decimal digits of the integer. *)
Lemma format_commas_strip :
  forall n : Z,
    strip_commas (format_commas n)
    = (sign_of (n <? 0) ++ decimal (Z.abs n))%list.
Proof.
  intros n. unfold strip_commas, format_commas.
  rewrite list_ascii_of_string_of_list_ascii.
  assert (Hbody :
            filter (fun c => negb (Ascii.eqb c comma))
                   (rev (group3 (rev (decimal (Z.abs n)))))
            = decimal (Z.abs n)).
  { rewrite filter_rev.
    rewrite (group3_strip (List.length (rev (decimal (Z.abs n))))).
    - apply rev_involutive.
    - lia.
    - apply Forall_rev, decimal_digits. }
  destruct (n <? 0); simpl; now rewrite Hbody.
Qed.

(** The text of an integer with separators: the sign, then the digits
    with a comma between groups of three counted from the right. *)
Lemma format_commas_separators :
  forall n : Z,
    exists g : list ascii,
      list_ascii_of_string (format_commas n)
      = (sign_of (n <? 0) ++ rev g)%list
      /\ separators_every_three g.
Proof.
  intros n. exists (group3 (rev (decimal (Z.abs n)))). split.
  - unfold format_commas. rewrite list_ascii_of_string_of_list_ascii.
    destruct (n <? 0); reflexivity.
  - apply (group3_separators (List.length (rev (decimal (Z.abs n))))).
    + lia.
    + apply Forall_rev, decimal_digits.
Qed.

Lemma nearest_ties_to_even_signed :
  forall (s : bool) num den r,
    nearest_ties_to_even num den r ->
    nearest_ties_to_even (if s then - num else num) den
                         (if s then - r else r).
Proof.
  intros s num den r H. unfold nearest_ties_to_even, nearest_integer in *.
  destruct s; [|exact H].
  replace (- num - - r * den) with (- (num - r * den)) by lia.
  rewrite Z.abs_opp, Z.even_opp. exact H.
Qed.

(** C9 (amended): both formatters return the empty text for null and
    for not-a-number.  For a finite [x] the price formatter returns the
    integer nearest to [x], the even one when [x] is half way between
    two integers, written in decimal digits with a comma between groups
    of three and no decimal point, and the ratio formatter returns [x]
    rounded in the same way to thousandths: sign, integer part, a point
    and exactly three digits.  For an infinite [x] the price formatter
    returns the empty text and the ratio formatter [inf] or [-inf].
    So 0.5 and 2.5 are written 0 and 2, 1.5 is written 2, 90/110 is
    written 0.818 and 0.0625 is written 0.062. *)
Theorem formatters_by_case :
  (forall x : option float,
    match x with
    | None => fmt_int_commas x = "" /\ fmt_ratio x = ""
    | Some f =>
        match exact_value f with
        | None =>
            fmt_int_commas x = ""
            /\ fmt_ratio x
               = (if PyFloat.isnan f then ""
                  else if signbit f then "-inf" else "inf")
        | Some (num, den) =>
            0 < den
            /\ exists n k : Z,
                 nearest_ties_to_even num den n
                 /\ fmt_int_commas x = format_commas n
                 /\ strip_commas (fmt_int_commas x)
                    = (sign_of (n <? 0) ++ decimal (Z.abs n))%list
                 /\ Forall (fun c => is_digit c = true) (decimal (Z.abs n))
                 /\ (exists g : list ascii,
                       list_ascii_of_string (fmt_int_commas x)
                       = (sign_of (n <? 0) ++ rev g)%list
                       /\ separators_every_three g)
                 /\ nearest_ties_to_even (1000 * num) den k
                 /\ list_ascii_of_string (fmt_ratio x)
                    = (sign_of (signbit f) ++ decimal (Z.abs k / 1000)
                       ++ [dot;
                           digit_char (Z.abs k mod 1000 / 100);
                           digit_char (Z.abs k mod 100 / 10);
                           digit_char (Z.abs k mod 10)])%list
                 /\ Forall (fun c => is_digit c = true)
                           (decimal (Z.abs k / 1000)
                            ++ [digit_char (Z.abs k mod 1000 / 100);
                                digit_char (Z.abs k mod 100 / 10);
                                digit_char (Z.abs k mod 10)])%list
        end
    end)
  /\ fmt_int_commas (Some 0.5%float) = "0"
  /\ fmt_int_commas (Some 1.5%float) = "2"
  /\ fmt_int_commas (Some 2.5%float) = "2"
  /\ fmt_int_commas (Some (-1234.5)%float) = "-1,234"
  /\ fmt_int_commas (Some 1234567.5%float) = "1,234,568"
  /\ fmt_ratio (Some (90 / 110)%float) = "0.818"
  /\ fmt_ratio (Some 0.0625%float) = "0.062"
  /\ fmt_ratio (Some 0.1875%float) = "0.188".
Proof.
  split; [|repeat split; vm_compute; reflexivity].
  intros [f|]; [|split; reflexivity].
  unfold exact_value, fmt_int_commas, fmt_ratio, is_float_nan, PyFloat.isnan,
    signbit, py_round, format_3f.
  cbn [is_none orb].
  destruct (Prim2SF f) as [s|s| |s m e] eqn:Hf.
  - (* zero *)
    split; [lia|]. exists 0, 0. cbn [try_except bind].
    split; [unfold nearest_ties_to_even, nearest_integer; simpl;
           split; [lia|reflexivity]|].
    split; [reflexivity|].
    split; [apply format_commas_strip|].
    split; [apply decimal_digits|].
    split; [apply format_commas_separators|].
    split; [unfold nearest_ties_to_even, nearest_integer; simpl;
           split; [lia|reflexivity]|].
    split; [destruct s; reflexivity|].
    repeat constructor.
  - (* infinity *)
    split; [reflexivity|]. destruct s; reflexivity.
  - (* not-a-number *)
    split; reflexivity.
  - (* finite *)
    destruct (abs_fraction m e) as [num den] eqn:Hfr.
    destruct (abs_fraction_pos m e num den Hfr) as [Hnum Hden].
    destruct (round_half_even_nearest num den ltac:(lia) Hden) as [Hn0 Hn].
    destruct (round_half_even_nearest (1000 * num) den ltac:(lia) Hden)
      as [Hk0 Hk].
    set (N := round_half_even num den) in *.
    set (K := round_half_even (1000 * num) den) in *.
    split; [exact Hden|].
    exists (if s then - N else N), (if s then - K else K).
    assert (HK : Z.abs (if s then - K else K) = K) by (destruct s; lia).
    rewrite HK. cbn [try_except bind].
    split; [now apply nearest_ties_to_even_signed|].
    split; [reflexivity|].
    split; [apply format_commas_strip|].
    split; [apply decimal_digits|].
    split; [apply format_commas_separators|].
    split.
    { replace (1000 * (if s then - num else num))
        with (if s then - (1000 * num) else 1000 * num)
        by (destruct s; lia).
      now apply nearest_ties_to_even_signed. }
    split.
    { rewrite list_ascii_of_string_of_list_ascii. destruct s; reflexivity. }
    apply Forall_app. split; [apply decimal_digits|].
    repeat constructor; apply digit_char_is_digit;
      Z.div_mod_to_equations; lia.
Qed.

(** C9 as stated fails at infinity, which is neither null nor
    not-a-number: the price formatter returns the empty text, which is
    no integer, and the ratio formatter returns a text without
    decimals. *)
Lemma formatters_at_infinity :
  PyFloat.isnan PyFloat.inf = false
  /\ PyFloat.isinf PyFloat.inf = true
  /\ fmt_int_commas (Some PyFloat.inf) = ""
  /\ fmt_ratio (Some PyFloat.inf) = "inf".
Proof. repeat split; vm_compute; reflexivity. Qed.

Example fmt_ratio_90_110 :
  safe_ratio (Some 90%float) (Some 110%float) = Ok (Some (90 / 110)%float)
  /\ fmt_ratio (Some (90 / 110)%float) = "0.818".
Proof. split; vm_compute; reflexivity. Qed.

Example fmt_int_commas_examples :
  fmt_int_commas (Some 1234567.5%float) = "1,234,568"
  /\ fmt_int_commas (Some (-1234.5)%float) = "-1,234"
  /\ fmt_int_commas (Some 999%float) = "999"
  /\ fmt_int_commas (Some 0.5%float) = "0"
  /\ fmt_int_commas (Some 100000%float) = "100,000"
  /\ fmt_int_commas (Some PyFloat.nan) = ""
  /\ fmt_int_commas None = "".
Proof. repeat split; vm_compute; reflexivity. Qed.

Example fmt_ratio_examples :
  fmt_ratio (Some 0.0625%float) = "0.062"
  /\ fmt_ratio (Some (-0.0001)%float) = "-0.000"
  /\ fmt_ratio (Some 1234.5678%float) = "1234.568"
  /\ fmt_ratio (Some PyFloat.nan) = ""
  /\ fmt_ratio None = "".
Proof. repeat split; vm_compute; reflexivity. Qed.

(* ================================================================== *)
(** * Further properties                                               *)
(* ================================================================== *)

(** ** The two fetch functions and the paginator *)

Section PaginatorFacts.

Variable w : world.
Variable ticker : string.
Variable size : nat.

(** A successful loop, from any state: no request raised, and the result
    is the rows gathered before followed by the rows of the requested
    pages. *)
Lemma fetch_loop_ok :
  forall todo page all_rows log rows,
    snd (fetch_loop w ticker size todo page all_rows log) = Ok rows ->
    exists n,
      (n <= todo)%nat
      /\ fst (fetch_loop w ticker size todo page all_rows log)
         = (log ++ seq page n)%list
      /\ rows = (all_rows
                 ++ List.concat (map (rows_of_page w ticker size)
                                     (seq page n)))%list
      /\ (forall k, (S k < n)%nat ->
            is_full w ticker size (page + k) = true).
Proof.
  intros todo page all_rows log rows Hok.
  destruct (fetch_loop_spec w ticker size todo page all_rows log)
    as (n & Hn & Hlog & Hfull & _ & Hsucc & Herr).
  exists n. split; [exact Hn|]. split; [exact Hlog|].
  split; [|exact Hfull].
  assert (Hnone : forall k, (k < n)%nat ->
            raises (fetch_reports_page w ticker (page + k) size) = false).
  { intros k Hk.
    destruct (fetch_reports_page w ticker (page + k) size) as [js|e] eqn:Hp;
      [reflexivity|].
    rewrite (Herr k e Hk Hp) in Hok. discriminate. }
  rewrite (Hsucc Hnone) in Hok. now injection Hok as <-.
Qed.

Lemma concat_length_bound :
  forall (bound : nat) (ls : list (list RawReport)),
    (forall l, In l ls -> (List.length l <= bound)%nat) ->
    (List.length (List.concat ls) <= List.length ls * bound)%nat.
Proof.
  intros bound ls. induction ls as [|l ls IH]; intros H; [simpl; lia|].
  simpl. rewrite length_app.
  pose proof (H l (or_introl eq_refl)).
  pose proof (IH (fun l' Hl' => H l' (or_intror Hl'))). lia.
Qed.

(** When the provider never sends more than [size] rows in a page, a
    successful fetch returns at most [max_pages * size] rows. *)
Theorem fetch_all_reports_row_bound :
  forall (max_pages page_start : nat) (rows : list RawReport),
    (forall k, (List.length (rows_of_page w ticker size k) <= size)%nat) ->
    fetch_all_reports w ticker size max_pages page_start = Ok rows ->
    (List.length rows <= max_pages * size)%nat.
Proof.
  intros max_pages page_start rows Hsize Hok.
  destruct (fetch_loop_ok max_pages page_start [] [] rows Hok)
    as (n & Hn & _ & -> & _).
  simpl.
  pose proof (concat_length_bound size
                (map (rows_of_page w ticker size) (seq page_start n))) as Hb.
  rewrite length_map, length_seq in Hb.
  assert (Hle : (n * size <= max_pages * size)%nat)
    by (apply Nat.mul_le_mono_r; exact Hn).
  eapply Nat.le_trans; [apply Hb|exact Hle].
  intros l Hl. apply in_map_iff in Hl. destruct Hl as (k & <- & _).
  apply Hsize.
Qed.

(** A loop that stopped before the end of its range does the same with
    a longer range. *)
Lemma fetch_loop_longer_range :
  forall todo todo' page all_rows log,
    (List.length (fst (fetch_loop w ticker size todo page all_rows log))
     < List.length log + todo)%nat ->
    (todo <= todo')%nat ->
    fetch_loop w ticker size todo' page all_rows log
    = fetch_loop w ticker size todo page all_rows log.
Proof.
  induction todo as [|todo IH]; intros todo' page all_rows log Hlt Hle.
  - simpl in Hlt. lia.
  - destruct todo' as [|todo']; [lia|].
    simpl in *.
    destruct (fetch_reports_page w ticker page size) as [js|e];
      [|reflexivity].
    destruct (page_rows js) as [|r rows]; [reflexivity|].
    destruct (List.length (r :: rows) <? size)%nat; [reflexivity|].
    apply IH; [|lia].
    rewrite length_app. simpl. lia.
Qed.

(** When a fetch issued fewer requests than [max_pages] allows, a larger
    limit changes neither the requests nor the result. *)
Theorem fetch_all_reports_limit_not_reached :
  forall (max_pages max_pages' page_start : nat),
    (List.length (requested_pages w ticker size max_pages page_start)
     < max_pages)%nat ->
    (max_pages <= max_pages')%nat ->
    requested_pages w ticker size max_pages' page_start
    = requested_pages w ticker size max_pages page_start
    /\ fetch_all_reports w ticker size max_pages' page_start
       = fetch_all_reports w ticker size max_pages page_start.
Proof.
  intros m m' ps Hlt Hle.
  unfold requested_pages, fetch_all_reports, fetch_all_reports_log in *.
  rewrite (fetch_loop_longer_range m m' ps [] []); [split; reflexivity| |exact Hle].
  simpl. exact Hlt.
Qed.

(** Rows gathered are kept: a successful loop returns them first. *)
Lemma fetch_loop_keeps_rows :
  forall todo page all_rows log rows,
    snd (fetch_loop w ticker size todo page all_rows log) = Ok rows ->
    exists more, rows = (all_rows ++ more)%list.
Proof.
  intros todo page all_rows log rows Hok.
  destruct (fetch_loop_ok todo page all_rows log rows Hok)
    as (n & _ & _ & -> & _).
  eexists. reflexivity.
Qed.

(** A fetch returns no row exactly when no page may be requested or the
    first page is empty. *)
Theorem fetch_all_reports_empty_iff :
  forall (max_pages page_start : nat),
    fetch_all_reports w ticker size max_pages page_start = Ok []
    <-> max_pages = 0%nat
        \/ (exists js,
              fetch_reports_page w ticker page_start size = Ok js
              /\ page_rows js = []).
Proof.
  intros m ps. unfold fetch_all_reports, fetch_all_reports_log.
  destruct m as [|m]; [split; [now left|reflexivity]|].
  simpl.
  destruct (fetch_reports_page w ticker ps size) as [js|e] eqn:Hp.
  - destruct (page_rows js) as [|r rows] eqn:Hrows.
    + split; [intros _; right; now exists js|reflexivity].
    + split.
      * intros H. exfalso.
        destruct (List.length (r :: rows) <? size)%nat; [discriminate|].
        apply fetch_loop_keeps_rows in H. destruct H as (more & H).
        discriminate.
      * intros [H|(js' & Hjs & H)]; [discriminate|].
        injection Hjs as <-. congruence.
  - split; [discriminate|].
    intros [H|(js & Hjs & _)]; discriminate.
Qed.

(** From any first page the paginator requests consecutive pages, no
    more than [max_pages], and at least one when [max_pages] is not 0. *)
Theorem requested_pages_consecutive :
  forall (max_pages page_start : nat),
    exists n,
      requested_pages w ticker size max_pages page_start = seq page_start n
      /\ (n <= max_pages)%nat
      /\ (max_pages <> 0%nat -> n <> 0%nat).
Proof.
  intros m ps.
  destruct (fetch_loop_spec w ticker size m ps [] [])
    as (n & Hn & Hlog & _ & Hstop & _).
  exists n. split; [exact Hlog|]. split; [exact Hn|].
  intros Hm. destruct (Nat.eq_dec n m) as [->|Hne]; [exact Hm|].
  assert (Hlt : (n < m)%nat) by lia. destruct (Hstop Hlt). lia.
Qed.

(** Both fetch functions accept a reply exactly when its status is not
    in 400..599 and its body decodes; an error status hides the body. *)
Theorem fetch_accepts_reply :
  forall (page : nat),
    (forall p,
       fetch_current_price w ticker = Ok p
       <-> exists status,
             quote w ticker = Reply status (Ok p)
             /\ ~ (400 <= status < 600))
    /\ (forall js,
          fetch_reports_page w ticker page size = Ok js
          <-> exists status,
                report_list w ticker page size = Reply status (Ok js)
                /\ ~ (400 <= status < 600))
    /\ (forall status body,
          report_list w ticker page size = Reply status body ->
          400 <= status < 600 ->
          fetch_reports_page w ticker page size = Raise HTTPError).
Proof.
  intros page.
  assert (Hst : forall status,
            ((400 <=? status) && (status <? 600) = true
             <-> 400 <= status < 600)).
  { intros status. rewrite andb_true_iff, Z.leb_le, Z.ltb_lt. tauto. }
  unfold fetch_current_price, fetch_reports_page, raise_for_status.
  split; [|split].
  - intros p. destruct (quote w ticker) as [e|status body].
    + split; [discriminate|]. intros (st & H & _). discriminate.
    + destruct ((400 <=? status) && (status <? 600)) eqn:Hs; simpl.
      * split; [discriminate|]. intros (st & H & Hn).
        injection H as -> _. apply Hst in Hs. contradiction.
      * split.
        -- intros ->. exists status. split; [reflexivity|].
           intros Hc. apply Hst in Hc. congruence.
        -- intros (st & H & _). now injection H as _ ->.
  - intros js. destruct (report_list w ticker page size) as [e|status body].
    + split; [discriminate|]. intros (st & H & _). discriminate.
    + destruct ((400 <=? status) && (status <? 600)) eqn:Hs; simpl.
      * split; [discriminate|]. intros (st & H & Hn).
        injection H as -> _. apply Hst in Hs. contradiction.
      * split.
        -- intros ->. exists status. split; [reflexivity|].
           intros Hc. apply Hst in Hc. congruence.
        -- intros (st & H & _). now injection H as _ ->.
  - intros status body -> Hs. apply Hst in Hs. now rewrite Hs.
Qed.

End PaginatorFacts.

Lemma fetch_all_reports_row_bound_witness :
  (List.length [report_A; report_A; report_A] <= 3 * 1)%nat.
Proof.
  apply (fetch_all_reports_row_bound world_full "VNM" 1 3 0).
  - intros k. apply Nat.le_refl.
  - reflexivity.
Defined.

Lemma fetch_all_reports_limit_not_reached_witness :
  requested_pages world_full "VNM" 2 50 0
  = requested_pages world_full "VNM" 2 3 0
  /\ fetch_all_reports world_full "VNM" 2 50 0
     = fetch_all_reports world_full "VNM" 2 3 0.
Proof.
  apply (fetch_all_reports_limit_not_reached world_full "VNM" 2 3 50 0).
  - simpl. lia.
  - lia.
Defined.

Example redirect_reply_is_accepted :
  fetch_all_reports world_redirect "VNM" 50 50 0 = Ok [report_A]
  /\ fetch_current_price world_redirect "VNM" = Ok 90%float.
Proof. split; reflexivity. Qed.

(** ** The aggregator *)


(** The cutoff is not after today when the lookback is not negative. *)
Lemma sub_years_before :
  forall (d : date) (n : Z) (cutoff : date),
    0 <= n -> sub_years d n = Ok cutoff -> date_leb cutoff d = true.
Proof.
  intros d n cutoff Hn H.
  apply sub_years_ok in H. destruct H as [_ ->].
  rewrite date_leb_iff. unfold on_or_after. cbn [year month day].
  destruct (Z.eq_dec n 0) as [->|Hne]; [right|left; lia].
  split; [lia|]. right. split; [reflexivity|lia].
Qed.

Lemma nunique_le_length :
  forall vals : list jval, (nunique vals <= List.length vals)%nat.
Proof.
  induction vals as [|v vals IH]; simpl; [lia|].
  destruct (existsb (jval_eqb v) vals); lia.
Qed.

Lemma dropna_length_le :
  forall cells : list (option jval),
    (List.length (dropna cells) <= List.length cells)%nat.
Proof.
  induction cells as [|c cells IH]; simpl; [lia|].
  destruct (notna c); simpl; lia.
Qed.

Lemma filter_filter_same :
  forall (A : Type) (f : A -> bool) (l : list A),
    filter f (filter f l) = filter f l.
Proof.
  intros A f l. induction l as [|a l IH]; [reflexivity|].
  simpl. destruct (f a) eqn:Hf; [|exact IH].
  simpl. now rewrite Hf, IH.
Qed.


Lemma has_column_app :
  forall (key : RawReport -> option jval) (rows1 rows2 : list RawReport),
    has_column key (rows1 ++ rows2)
    = has_column key rows1 || has_column key rows2.
Proof.
  intros key rows1 rows2. unfold has_column. apply existsb_app.
Qed.

Section AggregatorFacts.

Variable numeric_of_text : string -> float.
Variable c : clock.

(** The diversity is at most the size of the window. *)
Lemma window_stats_diversity_le_count :
  forall cutoff rows,
    (sourceDiversity (window_stats numeric_of_text c cutoff rows)
     <= reportCount (window_stats numeric_of_text c cutoff rows))%nat.
Proof.
  intros cutoff rows. unfold window_stats, sourceDiversity, reportCount.
  destruct (window_1y c cutoff rows) as [|r df]; [simpl; lia|].
  cbn [fst snd].
  eapply Nat.le_trans; [apply nunique_le_length|].
  eapply Nat.le_trans; [apply dropna_length_le|].
  now rewrite length_map.
Qed.

(** An average that is not null is a number, and comes with a report. *)
Lemma window_stats_average_some :
  forall cutoff rows avg,
    averageTarget (window_stats numeric_of_text c cutoff rows) = Some avg ->
    PyFloat.isnan avg = false
    /\ (0 < reportCount (window_stats numeric_of_text c cutoff rows))%nat.
Proof.
  intros cutoff rows avg. unfold window_stats, averageTarget, reportCount.
  destruct (window_1y c cutoff rows) as [|r df]; [discriminate|].
  cbn [fst snd]. unfold none_if_na.
  destruct (PyFloat.isnan (mean _)) eqn:Hnan; [discriminate|].
  intros H. injection H as <-. split; [exact Hnan|simpl; lia].
Qed.

Lemma stats_diversity_le_count :
  forall rows lookback_years s,
    build_one_year_report_stats numeric_of_text c rows lookback_years
    = Ok s ->
    (sourceDiversity s <= reportCount s)%nat.
Proof.
  intros rows lb s Hs.
  destruct (stats_ok_inv numeric_of_text c rows lb s Hs) as [cutoff ->].
  apply window_stats_diversity_le_count.
Qed.

Lemma stats_average_some :
  forall rows lookback_years s avg,
    build_one_year_report_stats numeric_of_text c rows lookback_years
    = Ok s ->
    averageTarget s = Some avg ->
    PyFloat.isnan avg = false /\ (0 < reportCount s)%nat.
Proof.
  intros rows lb s avg Hs.
  destruct (stats_ok_inv numeric_of_text c rows lb s Hs) as [cutoff ->].
  apply window_stats_average_some.
Qed.

(** The report count of a returned triple, whether or not there is a
    cutoff. *)
Lemma stats_count_le_rows :
  forall rows lookback_years s,
    build_one_year_report_stats numeric_of_text c rows lookback_years
    = Ok s ->
    (reportCount s <= List.length rows)%nat.
Proof.
  intros rows lb s Hs.
  destruct (stats_ok_inv numeric_of_text c rows lb s Hs) as [cutoff ->].
  rewrite window_stats_count. apply filter_length_le.
Qed.

(** Without a cutoff the aggregator returns only the triple of zeros. *)
Lemma stats_without_cutoff_zero :
  forall rows lookback_years e s,
    cutoff_date c lookback_years = Raise e ->
    build_one_year_report_stats numeric_of_text c rows lookback_years
    = Ok s ->
    s = (None, 0%nat, 0%nat)
    /\ (rows = [] \/ has_column issueDate rows = false).
Proof.
  intros rows lb e s Hc Hs.
  rewrite (stats_without_cutoff numeric_of_text c rows lb e Hc) in Hs.
  destruct rows as [|r0 rows0]; [injection Hs as <-; split; [reflexivity|now left]|].
  destruct (has_column issueDate (r0 :: rows0)) eqn:Hcol; [discriminate|].
  injection Hs as <-. split; [reflexivity|now right].
Qed.

(** The three statistics of a returned triple are ordered: diversity,
    then report count, then the number of raw records. *)
Theorem stats_counts_ordered :
  forall (rows : list RawReport) (lookback_years : Z)
         (s : option float * nat * nat),
    build_one_year_report_stats numeric_of_text c rows lookback_years
    = Ok s ->
    (sourceDiversity s <= reportCount s)%nat
    /\ (reportCount s <= List.length rows)%nat.
Proof.
  intros rows lb s Hs. split.
  - exact (stats_diversity_le_count rows lb s Hs).
  - exact (stats_count_le_rows rows lb s Hs).
Qed.

(** The average of a returned triple is never not-a-number: it is null
    or a number, and a number only when at least one report is
    counted. *)
Theorem average_is_null_or_number :
  forall (rows : list RawReport) (lookback_years : Z)
         (s : option float * nat * nat),
    build_one_year_report_stats numeric_of_text c rows lookback_years
    = Ok s ->
    match averageTarget s with
    | None => True
    | Some avg => PyFloat.isnan avg = false /\ (0 < reportCount s)%nat
    end.
Proof.
  intros rows lb s Hs.
  destruct (averageTarget s) as [avg|] eqn:Havg; [|exact I].
  exact (stats_average_some rows lb s avg Hs Havg).
Qed.

(** When the aggregator returns on two lists, it returns on the two put
    together, and the report count is the sum of the two report
    counts. *)
Theorem report_count_additive :
  forall (rows1 rows2 : list RawReport) (lookback_years : Z)
         (s1 s2 : option float * nat * nat),
    build_one_year_report_stats numeric_of_text c rows1 lookback_years
    = Ok s1 ->
    build_one_year_report_stats numeric_of_text c rows2 lookback_years
    = Ok s2 ->
    exists s : option float * nat * nat,
      build_one_year_report_stats numeric_of_text c (rows1 ++ rows2)
                                  lookback_years = Ok s
      /\ reportCount s = (reportCount s1 + reportCount s2)%nat.
Proof.
  intros rows1 rows2 lb s1 s2 H1 H2.
  destruct (cutoff_date c lb) as [cutoff|e] eqn:Hc.
  - rewrite (stats_with_cutoff numeric_of_text c rows1 lb cutoff Hc) in H1.
    rewrite (stats_with_cutoff numeric_of_text c rows2 lb cutoff Hc) in H2.
    injection H1 as <-. injection H2 as <-.
    exists (window_stats numeric_of_text c cutoff (rows1 ++ rows2)).
    split; [now apply stats_with_cutoff|].
    rewrite !window_stats_count. unfold window_1y.
    now rewrite filter_app, length_app.
  - destruct (stats_without_cutoff_zero rows1 lb e s1 Hc H1) as [-> Hr1].
    destruct (stats_without_cutoff_zero rows2 lb e s2 Hc H2) as [-> Hr2].
    exists (None, 0%nat, 0%nat). split; [|reflexivity].
    rewrite (stats_without_cutoff numeric_of_text c _ lb e Hc).
    destruct Hr1 as [->|Hr1].
    + cbn [app]. destruct Hr2 as [->|Hr2]; [reflexivity|].
      rewrite Hr2. now destruct rows2.
    + assert (Hcol : has_column issueDate (rows1 ++ rows2) = false).
      { rewrite has_column_app, Hr1. destruct Hr2 as [->|Hr2];
          [reflexivity|now rewrite Hr2]. }
      rewrite Hcol. now destruct (rows1 ++ rows2)%list.
Qed.


(** The window has no upper end: with a cutoff and a lookback that is
    not negative, a report dated today or later is kept. *)
Theorem window_keeps_future_reports :
  forall (rows : list RawReport) (lookback_years : Z) (cutoff : date)
         (r : RawReport) (d : date),
    0 <= lookback_years ->
    cutoff_date c lookback_years = Ok cutoff ->
    In r rows ->
    to_datetime c (issueDate r) = Some d ->
    date_leb (local_today c) d = true ->
    In r (window_1y c cutoff rows).
Proof.
  intros rows lb cutoff r d Hlb Hc Hin Hd Hafter.
  unfold window_1y. apply filter_In. split; [exact Hin|].
  unfold in_window. rewrite Hd.
  eapply date_leb_trans; [|exact Hafter].
  exact (sub_years_before _ lb cutoff Hlb Hc).
Qed.

(** Only the window matters: with a cutoff, the statistics of the
    records of the window are the statistics of all records. *)
Theorem stats_of_window_only :
  forall (rows : list RawReport) (lookback_years : Z) (cutoff : date),
    cutoff_date c lookback_years = Ok cutoff ->
    build_one_year_report_stats numeric_of_text c
      (window_1y c cutoff rows) lookback_years
    = build_one_year_report_stats numeric_of_text c rows lookback_years.
Proof.
  intros rows lb cutoff Hc.
  rewrite !(stats_with_cutoff numeric_of_text c _ lb cutoff Hc).
  unfold window_stats.
  assert (Hw : window_1y c cutoff (window_1y c cutoff rows)
               = window_1y c cutoff rows)
    by (unfold window_1y; apply filter_filter_same).
  now rewrite Hw.
Qed.

End AggregatorFacts.

Lemma stats_counts_ordered_witness :
  build_one_year_report_stats no_text_number june_1_2024
    [report_A; report_B; report_old] 1
  = Ok (Some 110%float, 2%nat, 2%nat)
  /\ (2 <= 2)%nat /\ (2 <= 3)%nat.
Proof.
  split; [reflexivity|].
  exact (stats_counts_ordered no_text_number june_1_2024
           [report_A; report_B; report_old] 1
           (Some 110%float, 2%nat, 2%nat) eq_refl).
Defined.

Lemma average_is_null_or_number_witness :
  build_one_year_report_stats no_text_number june_1_2024
    [report_A; report_B; report_old] 1
  = Ok (Some 110%float, 2%nat, 2%nat)
  /\ PyFloat.isnan 110%float = false /\ (0 < 2)%nat.
Proof.
  split; [reflexivity|].
  exact (average_is_null_or_number no_text_number june_1_2024
           [report_A; report_B; report_old] 1
           (Some 110%float, 2%nat, 2%nat) eq_refl).
Defined.

Lemma report_count_additive_witness :
  exists s : option float * nat * nat,
    build_one_year_report_stats no_text_number june_1_2024
      ([report_A; report_old] ++ [report_B]) 1 = Ok s
    /\ reportCount s = (1 + 1)%nat.
Proof.
  exact (report_count_additive no_text_number june_1_2024
           [report_A; report_old] [report_B] 1
           (Some 100%float, 1%nat, 1%nat) (Some 120%float, 1%nat, 1%nat)
           eq_refl eq_refl).
Defined.


Lemma window_keeps_future_reports_witness :
  In (mkreport (Some (JStr "01/01/2030")) None None)
     (window_1y june_1_2024 (mkdate 2023 6 1)
        [report_old; mkreport (Some (JStr "01/01/2030")) None None]).
Proof.
  apply (window_keeps_future_reports june_1_2024 _ 1 _ _ (mkdate 2030 1 1)).
  - lia.
  - reflexivity.
  - right. left. reflexivity.
  - reflexivity.
  - reflexivity.
Defined.

Lemma stats_of_window_only_witness :
  build_one_year_report_stats no_text_number june_1_2024
    (window_1y june_1_2024 (mkdate 2023 6 1)
       [report_A; report_B; report_old]) 1
  = build_one_year_report_stats no_text_number june_1_2024
      [report_A; report_B; report_old] 1.
Proof.
  apply (stats_of_window_only no_text_number june_1_2024
           [report_A; report_B; report_old] 1 (mkdate 2023 6 1)).
  reflexivity.
Defined.

Example lookback_5_counts_old_report :
  build_one_year_report_stats no_text_number june_1_2024
    [report_A; report_B; report_old] 5
  = Ok (Some (1219 / 3)%float, 3%nat, 3%nat).
Proof. vm_compute. reflexivity. Qed.

(** ** Texts that are not empty *)

Lemma string_of_list_ascii_empty :
  forall l : list ascii, string_of_list_ascii l = "" -> l = [].
Proof. intros [|a l] H; [reflexivity|discriminate H]. Qed.

Lemma decimal_not_empty : forall n : Z, decimal n <> [].
Proof.
  intros n. unfold decimal, NilZero.string_of_uint.
  destruct (N.to_uint (Z.to_N n)); discriminate.
Qed.

(** [f"{x:.3f}"] is never the empty text. *)
Lemma format_3f_not_empty : forall x : float, format_3f x <> "".
Proof.
  intros x. unfold format_3f.
  destruct (Prim2SF x) as [s|s| |s m e].
  - destruct s; discriminate.
  - destruct s; discriminate.
  - discriminate.
  - destruct (abs_fraction m e) as [num den].
    intros H. apply string_of_list_ascii_empty in H.
    destruct s; [discriminate H|].
    apply app_eq_nil in H. destruct H as [_ H]. discriminate H.
Qed.

(** [f"{n:,}"] is never the empty text. *)
Lemma format_commas_not_empty : forall n : Z, format_commas n <> "".
Proof.
  intros n. unfold format_commas. intros H.
  apply string_of_list_ascii_empty in H.
  destruct (n <? 0); [discriminate H|].
  apply (f_equal (@rev ascii)) in H. rewrite rev_involutive in H.
  simpl in H.
  pose proof (decimal_not_empty (Z.abs n)) as Hd.
  destruct (rev (decimal (Z.abs n))) as [|a [|b [|c [|d rest]]]] eqn:Hr;
    try discriminate H.
  apply (f_equal (@rev ascii)) in Hr. rewrite rev_involutive in Hr.
  contradiction.
Qed.

(** ** The rows of the batch *)

Section RowFacts.

Variable numeric_of_text : string -> float.
Variable w : world.

(** The reports of a ticker either give no statistics (a fetch or the
    aggregator raised) or the statistics of the rows that were
    fetched. *)
Lemma stats_of_ticker_inv :
  forall ticker,
    (exists e,
       (raw <- fetch_all_reports w ticker PAGE_SIZE MAX_PAGES 0 ;;
        build_one_year_report_stats numeric_of_text (now w ticker) raw
                                    LOOKBACK_YEARS) = Raise e)
    \/ (exists raw s,
          build_one_year_report_stats numeric_of_text (now w ticker) raw
                                      LOOKBACK_YEARS = Ok s
          /\ (raw <- fetch_all_reports w ticker PAGE_SIZE MAX_PAGES 0 ;;
              build_one_year_report_stats numeric_of_text (now w ticker) raw
                                          LOOKBACK_YEARS) = Ok s).
Proof.
  intros ticker.
  destruct (fetch_all_reports w ticker PAGE_SIZE MAX_PAGES 0) as [raw|e];
    cbn [bind]; [|left; now exists e].
  destruct (build_one_year_report_stats numeric_of_text (now w ticker) raw
                                        LOOKBACK_YEARS) as [s|e] eqn:Hs.
  - right. now exists raw, s.
  - left. now exists e.
Qed.

(** What holds of every row of the output table: a ratio needs a price
    and an evaluation; the acceptable price is there exactly with the
    evaluation and is 0.8 times it; an evaluation needs a counted report;
    the diversity is at most the report count. *)
Theorem row_invariants :
  forall ticker : string,
    let row := process_ticker numeric_of_text w ticker in
    (Ratio row <> None ->
     Current_Price row <> None /\ Report_Evaluation row <> None)
    /\ Acceptable_Purchase_Price row
       = option_map (fun e => PrimFloat.mul e BARGAIN_FACTOR)
                    (Report_Evaluation row)
    /\ (Report_Evaluation row <> None -> (0 < Reports_1Y row)%nat)
    /\ (Diversity_of_Report_Source row <= Reports_1Y row)%nat.
Proof.
  intros ticker row. unfold row.
  rewrite process_ticker_closed_form. cbv zeta.
  destruct (stats_of_ticker_inv ticker) as [[e He]|(raw & s & Hs & He)];
    rewrite He.
  - cbn. split; [intros H; now contradiction H|].
    split; [reflexivity|].
    split; [intros H; now contradiction H|lia].
  - pose proof (stats_diversity_le_count numeric_of_text (now w ticker)
                  raw LOOKBACK_YEARS s Hs) as Hdiv.
    pose proof (stats_average_some numeric_of_text (now w ticker)
                  raw LOOKBACK_YEARS s) as Havg.
    destruct (averageTarget s) as [avg|]; cbn.
    + destruct (Havg avg Hs eq_refl) as [_ Hcount].
      split; [|split; [reflexivity|split; [intros _; exact Hcount|exact Hdiv]]].
      destruct (fetch_current_price w ticker) as [p|e]; cbn.
      * intros _. split; discriminate.
      * intros H. now contradiction H.
    + split; [intros H; now contradiction H|].
      split; [reflexivity|].
      split; [intros H; now contradiction H|exact Hdiv].
Qed.

(** The error field of a row is empty exactly when the row has both a
    current price and a report evaluation. *)
Theorem errors_empty_iff_complete :
  forall ticker : string,
    let row := process_ticker numeric_of_text w ticker in
    Errors row = ""
    <-> Current_Price row <> None /\ Report_Evaluation row <> None.
Proof.
  intros ticker row. unfold row.
  rewrite process_ticker_closed_form. cbv zeta.
  destruct (fetch_current_price w ticker) as [p|e];
    destruct (_ <- fetch_all_reports w ticker PAGE_SIZE MAX_PAGES 0 ;; _)
      as [s|e'];
    try destruct (averageTarget s) as [avg|]; cbn;
    (split;
     [ intros H; try discriminate H; split; discriminate
     | intros [H1 H2]; try reflexivity;
       try (now contradiction H1); try (now contradiction H2) ]).
Qed.

(** An evaluation of zero gives a null ratio without any error tag. *)
Theorem zero_evaluation_is_silent :
  forall (ticker : string) (p : float) (raw : list RawReport)
         (s : option float * nat * nat) (avg : float),
    fetch_current_price w ticker = Ok p ->
    fetch_all_reports w ticker PAGE_SIZE MAX_PAGES 0 = Ok raw ->
    build_one_year_report_stats numeric_of_text (now w ticker) raw
                                LOOKBACK_YEARS = Ok s ->
    averageTarget s = Some avg ->
    PyFloat.eq_zero (PrimFloat.mul avg REPORT_FACTOR) = true ->
    let row := process_ticker numeric_of_text w ticker in
    Ratio row = None
    /\ Current_Price row = Some p
    /\ Report_Evaluation row = Some (PrimFloat.mul avg REPORT_FACTOR)
    /\ Errors row = "".
Proof.
  intros ticker p raw s avg Hp Hraw Hs Havg Hzero row. unfold row.
  rewrite process_ticker_closed_form. cbv zeta.
  rewrite Hp, Hraw. cbn [bind]. rewrite Hs, Havg. cbv beta iota.
  rewrite Hzero.
  repeat split; reflexivity.
Qed.

(** A highlighted row has a price, an evaluation, a counted report and
    a ratio text that is not empty. *)
Theorem highlight_needs_data :
  forall ticker : string,
    let row := process_ticker numeric_of_text w ticker in
    d_bg (display_row row) <> "" ->
    Current_Price row <> None
    /\ Report_Evaluation row <> None
    /\ (0 < Reports_1Y row)%nat
    /\ d_Ratio (display_row row) <> "".
Proof.
  intros ticker row Hbg.
  assert (Hratio : exists x, Ratio row = Some x /\ PyFloat.isnan x = false).
  { unfold display_row, row_bg in Hbg. cbn in Hbg.
    destruct (Ratio row) as [x|]; [|now contradiction Hbg].
    exists x. split; [reflexivity|].
    cbn in Hbg. destruct (PyFloat.isnan x); [now contradiction Hbg|reflexivity]. }
  destruct Hratio as (x & Hx & Hnan).
  assert (Hne : Ratio row <> None) by (rewrite Hx; discriminate).
  unfold row in *. clear row.
  revert Hne Hx. rewrite process_ticker_closed_form. cbv zeta.
  destruct (stats_of_ticker_inv ticker) as [[e He]|(raw & s & Hs & He)];
    rewrite He; [cbn; intros H; now contradiction H|].
  pose proof (stats_average_some numeric_of_text (now w ticker)
                raw LOOKBACK_YEARS s) as Havg.
  destruct (averageTarget s) as [avg|]; cbn;
    [|intros H; now contradiction H].
  destruct (Havg avg Hs eq_refl) as [_ Hcount].
  destruct (fetch_current_price w ticker) as [p|e]; cbn;
    [|intros H; now contradiction H].
  intros _ Hx.
  split; [discriminate|]. split; [discriminate|]. split; [exact Hcount|].
  unfold display_row, display_ratio, fmt_ratio. rewrite Hx.
  cbn [d_Ratio coerce_cell is_none is_float_nan orb]. rewrite Hnan.
  apply format_3f_not_empty.
Qed.

End RowFacts.

Lemma zero_evaluation_is_silent_witness :
  Ratio (process_ticker no_text_number world_zero_target "VNM") = None
  /\ Errors (process_ticker no_text_number world_zero_target "VNM") = "".
Proof.
  assert (Hp : fetch_current_price world_zero_target "VNM" = Ok 90%float)
    by reflexivity.
  assert (Hraw : fetch_all_reports world_zero_target "VNM"
                   PAGE_SIZE MAX_PAGES 0 = Ok [report_zero_target])
    by (vm_compute; reflexivity).
  assert (Hs : build_one_year_report_stats
                 no_text_number (now world_zero_target "VNM")
                 [report_zero_target] LOOKBACK_YEARS
               = Ok (Some 0%float, 1%nat, 1%nat))
    by (vm_compute; reflexivity).
  assert (Hz : PyFloat.eq_zero (PrimFloat.mul 0%float REPORT_FACTOR) = true)
    by (vm_compute; reflexivity).
  pose proof (zero_evaluation_is_silent no_text_number world_zero_target
                "VNM" _ _ _ 0%float Hp Hraw Hs eq_refl Hz) as H.
  cbv zeta in H. destruct H as (H1 & _ & _ & H4).
  split; [exact H1|exact H4].
Defined.

Lemma highlight_needs_data_witness :
  d_bg (display_row (process_ticker no_text_number world_bargain "VNM"))
  = STRONG_COLOR
  /\ d_Ratio (display_row
                (process_ticker no_text_number world_bargain "VNM")) <> "".
Proof.
  assert (Hbg : d_bg (display_row
                        (process_ticker no_text_number world_bargain "VNM"))
                = STRONG_COLOR)
    by (vm_compute; reflexivity).
  split; [exact Hbg|].
  apply (highlight_needs_data no_text_number world_bargain "VNM").
  rewrite Hbg. discriminate.
Defined.

Example display_row_bargain :
  display_row (process_ticker no_text_number world_bargain "VNM")
  = mkdisplay "VNM" "70" "99" 2 "79" "0.707" 2 "" STRONG_COLOR.
Proof. vm_compute. reflexivity. Qed.

Example display_row_no_quote :
  display_row (process_ticker no_text_number world_no_quote "VNM")
  = mkdisplay "VNM" "" "99" 2 "79" "" 2 "price_err:ReadTimeout; " "".
Proof. vm_compute. reflexivity. Qed.

(** ** The display table and the formatters *)

(** The coercion of the display columns changes no text and no
    highlight: a missing value is shown like not-a-number, as the empty
    text, and the background of a row is the colour of its ratio. *)
Theorem display_coercion_is_transparent :
  forall v : option float,
    display_price v = fmt_int_commas v
    /\ display_ratio v = fmt_ratio v
    /\ row_bg v = row_color_by_ratio v.
Proof.
  intros [f|]; [|repeat split; vm_compute; reflexivity].
  split; [reflexivity|]. split; [reflexivity|].
  unfold row_bg, row_color_by_ratio. cbn [coerce_cell].
  destruct (PyFloat.isnan f); reflexivity.
Qed.

(** A ratio that is zero or negative is in the strong tier. *)
Theorem nonpositive_ratio_is_strong :
  forall x : float,
    PrimFloat.leb x 0%float = true ->
    row_color_by_ratio (Some x) = STRONG_COLOR.
Proof.
  intros x H.
  assert (Hx : PyFloat.isnan x = false
               /\ PrimFloat.leb x 0.8%float = true).
  { revert H. unfold PyFloat.isnan. rewrite !leb_spec, Prim2SF_08.
    change (Prim2SF 0%float) with (S754_zero false).
    destruct (Prim2SF x) as [s|s| |s m e]; unfold SFleb, SFcompare;
      try destruct s; try discriminate; intros _; split; reflexivity. }
  destruct Hx as [Hnan Hle].
  unfold row_color_by_ratio. now rewrite Hnan, Hle.
Qed.

Lemma nonpositive_ratio_is_strong_witness :
  row_color_by_ratio (Some (-1)%float) = STRONG_COLOR.
Proof.
  apply (nonpositive_ratio_is_strong (-1)%float). reflexivity.
Defined.

Lemma read_digits_decimal :
  forall m : Z, 0 <= m -> read_digits (decimal m) = Some m.
Proof.
  intros m Hm. unfold read_digits, decimal.
  rewrite string_of_list_ascii_of_string.
  pose proof (DecimalN.Unsigned.of_to (Z.to_N m)) as Hd.
  destruct (N.to_uint (Z.to_N m)) eqn:Hu.
  1: { simpl. f_equal. change (N.of_uint Decimal.Nil) with 0%N in Hd. lia. }
  all: rewrite NilZero.usu by discriminate; cbn [option_map];
    rewrite Hd; f_equal; lia.
Qed.

Lemma digit_not_minus :
  forall c, is_digit c = true -> Ascii.eqb c minus = false.
Proof.
  intros c H. destruct (Ascii.eqb_spec c minus) as [->|_]; [|reflexivity].
  discriminate H.
Qed.

(** The text of an integer with separators, its commas taken out, reads
    back as the integer. *)
Lemma format_commas_round_trip :
  forall n : Z, read_int (strip_commas (format_commas n)) = Some n.
Proof.
  intros n. rewrite format_commas_strip.
  pose proof (read_digits_decimal (Z.abs n) (Z.abs_nonneg n)) as Hread.
  destruct (n <? 0) eqn:Hneg; simpl.
  - rewrite Hread. simpl. f_equal. apply Z.ltb_lt in Hneg. lia.
  - apply Z.ltb_ge in Hneg.
    pose proof (decimal_digits (Z.abs n)) as Hdig.
    pose proof (decimal_not_empty (Z.abs n)) as Hne.
    destruct (decimal (Z.abs n)) as [|c t] eqn:Hdec; [contradiction|].
    inversion Hdig as [|? ? Hc _]; subst.
    unfold read_int. rewrite (digit_not_minus c Hc), Hread.
    f_equal. lia.
Qed.

(** When [x] rounds to the integer [n], the price text of [x], its
    commas taken out, reads back as [n]. *)
Theorem fmt_int_commas_round_trip :
  forall (x : float) (n : Z),
    py_round x = Ok n ->
    read_int (strip_commas (fmt_int_commas (Some x))) = Some n.
Proof.
  intros x n Hround.
  assert (Hnan : PyFloat.isnan x = false).
  { revert Hround. unfold py_round, PyFloat.isnan.
    destruct (Prim2SF x); try reflexivity; discriminate. }
  unfold fmt_int_commas. cbn [is_none is_float_nan orb].
  rewrite Hnan, Hround. cbn [bind try_except].
  apply format_commas_round_trip.
Qed.

Lemma fmt_int_commas_round_trip_witness :
  read_int (strip_commas (fmt_int_commas (Some 1234567.5%float)))
  = Some 1234568.
Proof.
  apply (fmt_int_commas_round_trip 1234567.5%float 1234568).
  vm_compute. reflexivity.
Defined.

(** A cell is blank exactly when there is no number to show: the ratio
    text is empty only for null and not-a-number, the price text only
    for null, not-a-number and the infinities. *)
Theorem blank_text_iff :
  forall x : option float,
    (fmt_ratio x = ""
     <-> x = None \/ exists f, x = Some f /\ PyFloat.isnan f = true)
    /\ (fmt_int_commas x = ""
        <-> x = None
            \/ exists f, x = Some f
                         /\ (PyFloat.isnan f = true
                             \/ PyFloat.isinf f = true)).
Proof.
  intros [f|].
  2: { split; (split; [intros _; now left|reflexivity]). }
  unfold fmt_ratio, fmt_int_commas. cbn [is_none is_float_nan orb].
  split.
  - destruct (PyFloat.isnan f) eqn:Hnan.
    + split; [intros _; right; now exists f|reflexivity].
    + split.
      * intros H. now apply format_3f_not_empty in H.
      * intros [H|(f' & Hf & H)]; [discriminate|].
        injection Hf as <-. congruence.
  - assert (Hround :
              match py_round f with
              | Ok _ => PyFloat.isnan f = false /\ PyFloat.isinf f = false
              | Raise _ => PyFloat.isnan f = true \/ PyFloat.isinf f = true
              end).
    { unfold py_round, PyFloat.isnan, PyFloat.isinf.
      destruct (Prim2SF f) as [s|s| |s m e];
        [now split|now right|now left|].
      destruct (abs_fraction m e) as [num den]. now split. }
    destruct (py_round f) as [n|e]; cbn [bind try_except].
    + destruct Hround as [Hnan Hinf]. rewrite Hnan. split.
      * intros H. now apply format_commas_not_empty in H.
      * intros [H|(f' & Hf & [H|H])]; [discriminate| |];
          injection Hf as <-; congruence.
    + split; [|destruct (PyFloat.isnan f); reflexivity].
      intros _. right. now exists f.
Qed.
